(** * Slack sharing and link unfurling (pkg/api, Go): a shallow embedding

    The development follows the Go handler file of the Slack integration:
    [extractURLInfo], [getImageURL], [renderDashboard], [sendUnfurlEvent],
    [handleLinkSharedEvent], [AcknowledgeSlackEvent] and [ShareToSlack].

    Strings are Go strings seen as byte sequences ([string] of [ascii]).
    Go maps keyed by strings are [gmap string _].  Calls that leave the
    handler (dashboard service, rendering service, JSON marshalling, the
    HTTP client, body readers) are state transformers on an abstract world;
    the handler itself runs in a small state-and-panic monad that records
    every log line and every outbound HTTP call. *)

From stdpp Require Import gmap strings list.
From Stdlib Require Import String Ascii Lia.

Set Default Proof Using "Type".

(* String concatenation computes on a constructor-headed first argument. *)
#[local] Arguments String.append !_ _ / : simpl nomatch.

(** ** Byte strings *)

Module Str.

(** The line feed, the one byte that [.] refuses in a Go pattern. *)
Definition LF : ascii := "010"%char.

Fixpoint has_char (c : ascii) (s : string) : bool :=
  match s with
  | EmptyString => false
  | String a s' => if Ascii.eqb a c then true else has_char c s'
  end.

Definition no_slash (s : string) : bool := negb (has_char "/" s).
Definition no_LF (s : string) : bool := negb (has_char LF s).

End Str.

(** ** The part of Go's [regexp] package that [extractURLInfo] uses

    Go documents the matching discipline of [regexp] as: the match begins as
    early as possible in the input, and among those it is the one a
    backtracking search would find first.  The matcher below is that
    backtracking search, written in continuation-passing style; positions
    are byte offsets into the input, as in [FindStringSubmatchIndex].

    The matcher works on bytes where Go works on runes.  The pattern at
    hand only tells apart the slash, the letter d and the line feed, three
    ASCII bytes that never occur inside a multi-byte UTF-8 sequence, so
    both views cut the input at the same offsets.  A negated class matches
    the line feed (the flag ClassNL of the Perl syntax), [.] does not. *)

Module Regexp.
Import Str.

(** One-character matchers: [.], a literal byte, and a negated
    one-byte class such as [[^\/]]. *)
Inductive CharClass : Type :=
| AnyCharNotNL
| Literal (c : ascii)
| NotLiteral (c : ascii).

Definition class_matches (cl : CharClass) (c : ascii) : bool :=
  match cl with
  | AnyCharNotNL => negb (Ascii.eqb c LF)
  | Literal a => Ascii.eqb c a
  | NotLiteral a => negb (Ascii.eqb c a)
  end.

(** Syntax trees of the patterns: single characters, greedy stars of a
    single character, concatenation and numbered capture groups. *)
Inductive Regexp : Type :=
| Char (cl : CharClass)
| Star (cl : CharClass)
| Concat (r1 r2 : Regexp)
| Capture (idx : nat) (r : Regexp).

Fixpoint NumSubexp (r : Regexp) : nat :=
  match r with
  | Char _ | Star _ => 0
  | Concat r1 r2 => Nat.max (NumSubexp r1) (NumSubexp r2)
  | Capture i r => Nat.max i (NumSubexp r)
  end.

(** Capture registers: group index to (start, end) offsets, most recent
    binding first. *)
Definition Caps : Type := list (nat * (nat * nat)).

Fixpoint cap_lookup (i : nat) (cs : Caps) : option (nat * nat) :=
  match cs with
  | [] => None
  | (j, se) :: cs' => if Nat.eqb i j then Some se else cap_lookup i cs'
  end.

Definition Cont (R : Type) : Type := nat -> string -> Caps -> option R.

(** Greedy iteration: take one more character when possible and only
    fall back to the continuation at the current position when the
    longer attempt fails. *)
Fixpoint star_greedy {R} (cl : CharClass) (pos : nat) (s : string)
    (k : nat -> string -> option R) : option R :=
  match s with
  | EmptyString => k pos s
  | String c s' =>
      if class_matches cl c then
        match star_greedy cl (S pos) s' k with
        | Some r => Some r
        | None => k pos s
        end
      else k pos s
  end.

Fixpoint run {R} (r : Regexp) (pos : nat) (s : string) (caps : Caps)
    (k : Cont R) : option R :=
  match r with
  | Char cl =>
      match s with
      | EmptyString => None
      | String c s' => if class_matches cl c then k (S pos) s' caps else None
      end
  | Star cl => star_greedy cl pos s (fun pos' s' => k pos' s' caps)
  | Concat r1 r2 =>
      run r1 pos s caps (fun pos' s' caps' => run r2 pos' s' caps' k)
  | Capture i r1 =>
      run r1 pos s caps
        (fun pos' s' caps' => k pos' s' ((i, (pos, pos')) :: caps'))
  end.

(** Every byte of [s] is in the class. *)
Fixpoint all_in (cl : CharClass) (s : string) : bool :=
  match s with
  | EmptyString => true
  | String c s' => class_matches cl c && all_in cl s'
  end.

(** [s] is empty or begins with a byte outside the class. *)
Definition stops (cl : CharClass) (s : string) : bool :=
  match s with
  | EmptyString => true
  | String c _ => negb (class_matches cl c)
  end.

Definition accept : Cont (nat * Caps) := fun e _ cs => Some (e, cs).

(** Unanchored search: the leftmost start offset at which the pattern
    matches. *)
Fixpoint find_from (r : Regexp) (pos : nat) (s : string)
    : option (nat * nat * Caps) :=
  match run r pos s [] accept with
  | Some (e, cs) => Some (pos, e, cs)
  | None =>
      match s with
      | EmptyString => None
      | String _ s' => find_from r (S pos) s'
      end
  end.

Definition slice (s : string) (se : option (nat * nat)) : string :=
  match se with
  | Some (b, e) => substring b (e - b) s
  | None => ""
  end.

(** [FindStringSubmatch]: the empty slice when there is no match,
    otherwise the text of the whole match followed by the text of every
    capture group. *)
Definition FindStringSubmatch (r : Regexp) (s : string) : list string :=
  match find_from r 0 s with
  | None => []
  | Some (b, e, cs) =>
      slice s (Some (b, e))
        :: map (fun i => slice s (cap_lookup i cs)) (seq 1 (NumSubexp r))
  end.

End Regexp.

(** ** Link extractor *)

Import Str.

(** The pattern of [extractURLInfo], parsed.  Token by token it reads
    [. *  (  \/ d \/  (  [^\/] *  )  \/  . *  )]: the escaped slashes are
    literal slashes, group 1 spans from the slash before the d to the end
    of the match and group 2 is the run of non-slash bytes in between. *)
Definition re_group1 : Regexp.Regexp :=
  let slash := Regexp.Char (Regexp.Literal "/") in
  Regexp.Capture 1
    (Regexp.Concat slash
       (Regexp.Concat (Regexp.Char (Regexp.Literal "d"))
          (Regexp.Concat slash
             (Regexp.Concat
                (Regexp.Capture 2 (Regexp.Star (Regexp.NotLiteral "/")))
                (Regexp.Concat slash
                   (Regexp.Star Regexp.AnyCharNotNL)))))).

Definition re : Regexp.Regexp :=
  Regexp.Concat (Regexp.Star Regexp.AnyCharNotNL) re_group1.

(** extractURLInfo returns the render path and the dashboard UID *)
Definition extractURLInfo (dashboardURL : string) : string * string :=
  let res := Regexp.FindStringSubmatch re dashboardURL in
  if negb (Nat.eqb (List.length res) 3) then ("", "")
  else (nth 1 res "", nth 2 res "").

(** *** What a dashboard segment is, independently of the matcher *)

Fixpoint strip_prefix (p s : string) : option string :=
  match p, s with
  | EmptyString, _ => Some s
  | String a p', String b s' =>
      if Ascii.eqb a b then strip_prefix p' s' else None
  | String _ _, EmptyString => None
  end.

(** [s] begins with a segment: the bytes /d/ and a later slash. *)
Definition starts_segment (s : string) : bool :=
  match strip_prefix "/d/" s with
  | Some t => has_char "/" t
  | None => false
  end.

(** Some suffix of [s] begins with a segment. *)
Fixpoint contains_segment (s : string) : bool :=
  starts_segment s ||
  match s with
  | EmptyString => false
  | String _ s' => contains_segment s'
  end.


(** ** Errors, results and the handler monad *)

(** Go [error] values: [errors.New]-style errors carrying a message, and
    [fmt.Errorf] with the wrapping verb, which keeps the wrapped error. *)
Inductive error : Type :=
| errorString (msg : string)
| wrapError (msg : string) (err : error).

Definition error_Error (e : error) : string :=
  match e with
  | errorString msg => msg
  | wrapError msg _ => msg
  end.

(** [fmt.Errorf(prefix + "%w", err)] *)
Definition fmt_Errorf_w (prefix : string) (err : error) : error :=
  wrapError (prefix +:+ error_Error err) err.

(** Result of a call returning [(value, error)] where the value is only
    meaningful without an error. *)
Inductive Result (A : Type) : Type :=
| Ok (a : A)
| Err (err : error).
Arguments Ok {A} a.
Arguments Err {A} err.

(** Run-time panics the handlers can raise. *)
Inductive Panic : Type :=
| NilDereference
| IndexOutOfRange.

Inductive Outcome (A : Type) : Type :=
| Returned (a : A)
| Panicked (p : Panic).
Arguments Returned {A} a.
Arguments Panicked {A} p.

(** State-and-panic monad: a computation steps the state and either
    returns or panics; a panic skips the rest of the computation. *)
Definition M (S A : Type) : Type := S -> Outcome A * S.

Definition ret {S A} (a : A) : M S A := fun st => (Returned a, st).

Definition bind {S A B} (m : M S A) (k : A -> M S B) : M S B :=
  fun st =>
    match m st with
    | (Returned a, st') => k a st'
    | (Panicked p, st') => (Panicked p, st')
    end.

Definition panic {S A} (p : Panic) : M S A := fun st => (Panicked p, st).

(** [defer d; body]: [d] runs when [body] is left, by return or by panic;
    a panic of [d] replaces whatever [body] produced. *)
Definition defer {S A} (d : M S unit) (body : M S A) : M S A :=
  fun st =>
    match body st with
    | (out, st') =>
        match d st' with
        | (Returned _, st'') => (out, st'')
        | (Panicked p, st'') => (Panicked p, st'')
        end
    end.

(** Dereferencing a pointer that may be nil. *)
Definition deref {S A} (p : option A) : M S A :=
  match p with
  | Some a => ret a
  | None => panic NilDereference
  end.

(** Indexing a slice. *)
Definition index {S A} (l : list A) (i : nat) : M S A :=
  match l !! i with
  | Some a => ret a
  | None => panic IndexOutOfRange
  end.

Declare Scope go_scope.
Delimit Scope go_scope with go.
Notation "x <- m ;; k" := (bind m (fun x => k))
  (at level 100, m at next level, right associativity) : go_scope.
Notation "m ;;; k" := (bind m (fun _ => k))
  (at level 100, right associativity) : go_scope.

(** ** Data model of the Slack integration *)

Definition http_StatusOK : nat := 200.
Definition http_StatusBadRequest : nat := 400.
Definition http_MethodPost : string := "POST".

Record EventChallengeAck : Type := {
  EventChallengeAck_Challenge : string;
}.

(** Link represents the "links" field in the event *)
Record Link : Type := {
  Link_URL : string;
  Link_Domain : string;
}.

(** Event represents the "event" field in the payload *)
Record Event : Type := {
  Event_Type : string;
  Event_User : string;
  Event_Channel : string;
  Event_MessageTS : string;
  Event_Links : list Link;
  Event_Source : string;
  Event_UnfurlID : string;
  Event_IsBotUserMember : bool;
  Event_EventTS : string;
}.

Record Text : Type := {
  Text_Type : string;
  Text_Text : string;
}.

Record ImageAccessory : Type := {
  ImageAccessory_Type : string;
  ImageAccessory_Title : option Text;
  ImageAccessory_ImageURL : string;
  ImageAccessory_AltText : string;
}.

Record Element : Type := {
  Element_Type : string;
  Element_Text : option Text;
  Element_Style : string;
  Element_Value : string;
  Element_URL : string;
}.

Record Block : Type := {
  Block_Type : string;
  Block_Text : option Text;
  Block_Accessory : option ImageAccessory;
  Block_ImageURL : string;
  Block_Title : option Text;
  Block_AltText : string;
  Block_Elements : list Element;
}.

Record Unfurl : Type := {
  Unfurl_Blocks : list Block;
}.

Abbreviation Unfurls := (gmap string Unfurl).

Record UnfurlEventPayload : Type := {
  UnfurlEventPayload_Channel : string;
  UnfurlEventPayload_TS : string;
  UnfurlEventPayload_Unfurls : Unfurls;
}.

Record ShareRequest : Type := {
  ShareRequest_ChannelIds : list string;
  ShareRequest_Message : string;
  ShareRequest_ImagePreviewUrl : string;
  ShareRequest_PanelId : string;
  ShareRequest_DashboardPath : string;
}.

Record PostMessageRequest : Type := {
  PostMessageRequest_Channel : string;
  PostMessageRequest_Blocks : list Block;
}.

(** The values the handlers hand to [json.Marshal]. *)
Inductive JSONValue : Type :=
| JPostMessageRequest (r : PostMessageRequest)
| JUnfurlEventPayload (p : UnfurlEventPayload).

(** What a handler hands back to the web framework. *)
Inductive JSONBody : Type :=
| JNil
| JEventChallengeAck (a : EventChallengeAck).

Inductive Response : Type :=
| response_Error (status : nat) (message : string) (err : error)
| response_JSON (status : nat) (body : JSONBody)
| response_Empty (status : nat).

(** The inbound request as the handlers read it: the route parameters;
    the body is only reached through [web.Bind]. *)
Record ReqContext : Type := {
  Req_Params : gmap string string;
  Req_Body : string;
}.

(** [web.Params(c.Req)[key]]: a missing key reads as the empty string. *)
Definition web_Params (c : ReqContext) (key : string) : string :=
  default "" (Req_Params c !! key).

Inductive Context_ : Type :=
| context_Background
| Req_Context (c : ReqContext).

(** Outbound requests.  [Header.Add] appends to the values of a key. *)
Record Request : Type := {
  Request_Method : string;
  Request_URL : string;
  Request_Header : gmap string (list string);
  Request_Body : string;
}.

Definition Header_Add (req : Request) (key value : string) : Request :=
  {| Request_Method := Request_Method req;
     Request_URL := Request_URL req;
     Request_Header :=
       <[key := default [] (Request_Header req !! key) ++ [value]]>
         (Request_Header req);
     Request_Body := Request_Body req |}.

Record GetDashboardQuery : Type := {
  GetDashboardQuery_UID : string;
}.

Record rendering_Opts : Type := {
  Opts_Timeout : Z;
  Opts_OrgID : Z;
  Opts_OrgRole : string;
  Opts_Width : Z;
  Opts_Height : Z;
  Opts_Path : string;
  Opts_ConcurrentLimit : Z;
  Opts_DeviceScaleFactor : Z;
  Opts_Theme : string;
}.

Record RenderResult : Type := {
  RenderResult_FilePath : string;
}.

Definition time_Second : Z := 1000000000.

Record Cfg : Type := {
  Cfg_Protocol : string;
  Cfg_HTTPAddr : string;
  Cfg_HTTPPort : string;
  Cfg_SlackToken : string;
  Cfg_RendererCallbackUrl : string;
  Cfg_ServeFromSubPath : bool;
  Cfg_AppSubURL : string;
  Cfg_RendererConcurrentRequestLimit : Z;
}.

Inductive LogLevel : Type := LvlInfo | LvlError.

Inductive LogValue : Type :=
| LogStr (s : string)
| LogErr (err : error).

Set Implicit Arguments.

Section Model.

(** The world outside the handler, the body handle of an HTTP response,
    and two types declared elsewhere in the repository. *)
Variables (World ReadCloser Authorization Dashboard : Type).

Record EventPayload : Type := {
  EventPayload_Token : string;
  EventPayload_TeamID : string;
  EventPayload_APIAppID : string;
  EventPayload_Event : Event;
  EventPayload_Type : string;
  EventPayload_EventID : string;
  EventPayload_EventTime : Z;
  EventPayload_Authorizations : list Authorization;
  EventPayload_IsExtSharedChannel : bool;
  EventPayload_EventContext : string;
  EventPayload_Challenge : string;
}.

Record http_Response : Type := {
  Response_Body : ReadCloser;
}.

(** What [http.DefaultClient.Do] returns: a response pointer and an
    error, either of which may be nil. *)
Record DoResult : Type := {
  Do_res : option http_Response;
  Do_err : option error;
}.

(** Everything observable that a handler does. *)
Inductive Effect : Type :=
| Log (lvl : LogLevel) (msg : string) (ctx : list (string * LogValue))
| HttpDo (req : Request) (result : DoResult).

Record State : Type := {
  world : World;
  effects : list Effect;
}.

(** Packages and constants the handlers use and the sources do not
    contain: scheme constants of [setting], role and theme constants,
    [filepath.Base], [json.Marshal], the validation http.NewRequest
    performs on method and URL, [web.Bind], the HTTP client and the body
    reader. *)
Record Env : Type := {
  setting_HTTPScheme : string;
  setting_HTTP2Scheme : string;
  setting_HTTPSScheme : string;
  roletype_RoleAdmin : string;
  models_ThemeDark : string;
  Dashboard_Title : Dashboard -> string;
  filepath_Base : string -> string;
  json_Marshal : JSONValue -> Result string;
  http_NewRequest_check : string -> string -> option error;
  web_Bind_ShareRequest : ReqContext -> Result ShareRequest;
  web_Bind_EventPayload : ReqContext -> Result EventPayload;
  http_DefaultClient_Do : Request -> World -> DoResult * World;
  io_ReadAll : ReadCloser -> World -> (string * option error) * World;
  Body_Close : ReadCloser -> World -> option error * World;
}.

Record HTTPServer : Type := {
  hs_Cfg : Cfg;
  DashboardService_GetDashboard :
    Context_ -> GetDashboardQuery -> World -> Result Dashboard * World;
  RenderService_Render :
    Context_ -> rendering_Opts -> World -> Result RenderResult * World;
}.

Variable env : Env.
Variable hs : HTTPServer.

Local Open Scope go_scope.

(** A call into the world. *)
Definition call {A} (f : World -> A * World) : M State A :=
  fun st =>
    let (a, w) := f (world st) in
    (Returned a, {| world := w; effects := effects st |}).

Definition emit (e : Effect) : M State unit :=
  fun st => (Returned tt, {| world := world st; effects := effects st ++ [e] |}).

Definition hs_log_Error (msg : string) (ctx : list (string * LogValue)) : M State unit :=
  emit (Log LvlError msg ctx).

Definition hs_log_Info (msg : string) (ctx : list (string * LogValue)) : M State unit :=
  emit (Log LvlInfo msg ctx).

(** [http.NewRequest]: a nil request and an error when method or URL are
    refused, otherwise a request without headers and no error. *)
Definition http_NewRequest (method url body : string)
  : option Request * option error :=
  match http_NewRequest_check env method url with
  | Some err => (None, Some err)
  | None =>
      (Some {| Request_Method := method; Request_URL := url;
               Request_Header := ∅; Request_Body := body |}, None)
  end.

(** [req.Header.Add(key, value)] through a request pointer. *)
Definition req_Header_Add (req : option Request) (key value : string)
  : M State (option Request) :=
  r <- deref req ;; ret (Some (Header_Add r key value)).

(** [http.DefaultClient.Do(req)]; the call and what came back are recorded. *)
Definition http_Do (req : option Request) : M State DoResult :=
  r <- deref req ;;
  result <- call (http_DefaultClient_Do env r) ;;
  emit (HttpDo r result) ;;;
  ret result.

(** [res.Body] through a response pointer. *)
Definition res_Body (res : option http_Response) : M State ReadCloser :=
  r <- deref res ;; ret (Response_Body r).

(** The scheme switch shared by [ShareToSlack] and [getImageURL]. *)
Definition scheme_switch (protocol : string) : string :=
  if String.eqb protocol (setting_HTTPScheme env) then "http"
  else if String.eqb protocol (setting_HTTP2Scheme env)
          || String.eqb protocol (setting_HTTPSScheme env) then "https"
  else protocol.

Definition domain_of_addr (addr : string) : string :=
  if negb (String.eqb addr "0.0.0.0") then addr else "localhost".

(** *** ShareToSlack *)

Definition ShareToSlack_blocks (dashboardLink title : string)
    (shareRequest : ShareRequest) : list Block :=
  [ {| Block_Type := "section";
       Block_Text := Some {| Text_Type := "mrkdwn";
                             Text_Text := "<" +:+ dashboardLink +:+ "|*" +:+ title +:+ "*>" |};
       Block_Accessory := None; Block_ImageURL := ""; Block_Title := None;
       Block_AltText := ""; Block_Elements := [] |};
    {| Block_Type := "section";
       Block_Text := Some {| Text_Type := "plain_text";
                             Text_Text := ShareRequest_Message shareRequest |};
       Block_Accessory := None; Block_ImageURL := ""; Block_Title := None;
       Block_AltText := ""; Block_Elements := [] |};
    {| Block_Type := "image";
       Block_Text := None; Block_Accessory := None;
       Block_ImageURL := ShareRequest_ImagePreviewUrl shareRequest;
       Block_Title := Some {| Text_Type := "plain_text";
                              Text_Text := "Dashboard preview" |};
       Block_AltText := "dashboard preview"; Block_Elements := [] |};
    {| Block_Type := "actions";
       Block_Text := None; Block_Accessory := None; Block_ImageURL := "";
       Block_Title := None; Block_AltText := "";
       Block_Elements :=
         [ {| Element_Type := "button";
              Element_Text := Some {| Text_Type := "plain_text";
                                      Text_Text := "View in Grafana" |};
              Element_Style := "primary";
              Element_Value := "View in Grafana";
              Element_URL := dashboardLink |} ] |} ].

(** One iteration of the loop over the channel identifiers.  [Some r]
    is a [return r] out of the handler, [None] goes on with the next
    channel. *)
Definition ShareToSlack_channel (blocks : list Block) (channelId : string)
  : M State (option Response) :=
  let postMessageRequest :=
    {| PostMessageRequest_Channel := channelId;
       PostMessageRequest_Blocks := blocks |} in
  match json_Marshal env (JPostMessageRequest postMessageRequest) with
  | Err err => ret (Some (response_Error 400 "error parsing body" err))
  | Ok jsonBody =>
      let '(req, err) :=
        http_NewRequest http_MethodPost "https://slack.com/api/chat.postMessage" jsonBody in
      req <- req_Header_Add req "Content-Type" "application/json; charset=utf-8" ;;
      req <- req_Header_Add req "Authorization"
               ("Bearer " +:+ Cfg_SlackToken (hs_Cfg hs)) ;;
      let _ :=
        match err with
        | Some err => Some (fmt_Errorf_w "client: could not create request: " err)
        | None => None
        end in
      result <- http_Do req ;;
      let _ :=
        match Do_err result with
        | Some err => Some (fmt_Errorf_w "client: error making http request: " err)
        | None => None
        end in
      body <- res_Body (Do_res result) ;;
      read <- call (io_ReadAll env body) ;;
      let '(resBody, err) := read in
      let _ :=
        match err with
        | Some err => Some (fmt_Errorf_w "client: could not read response body: " err)
        | None => None
        end in
      hs_log_Info "successfully sent unfurl event payload" [("body", LogStr resBody)] ;;;
      ret None
  end.

Fixpoint ShareToSlack_loop (blocks : list Block) (channelIds : list string)
  : M State (option Response) :=
  match channelIds with
  | [] => ret None
  | channelId :: rest =>
      r <- ShareToSlack_channel blocks channelId ;;
      match r with
      | Some resp => ret (Some resp)
      | None => ShareToSlack_loop blocks rest
      end
  end.

Definition ShareToSlack_link (shareRequest : ShareRequest) : string :=
  let protocol := scheme_switch (Cfg_Protocol (hs_Cfg hs)) in
  let domain := domain_of_addr (Cfg_HTTPAddr (hs_Cfg hs)) in
  protocol +:+ "://" +:+ domain +:+ ":" +:+ Cfg_HTTPPort (hs_Cfg hs)
    +:+ ShareRequest_DashboardPath shareRequest.

Definition ShareToSlack (c : ReqContext) : M State Response :=
  let dashboardUid := web_Params c ":uid" in
  r <- call (DashboardService_GetDashboard hs (Req_Context c)
               {| GetDashboardQuery_UID := dashboardUid |}) ;;
  match r with
  | Err err =>
      hs_log_Error "fail to get dashboard"
        [("err", LogErr err); ("dashboard UID", LogStr dashboardUid)] ;;;
      ret (response_Error 400 "error parsing body" err)
  | Ok dashboard =>
      match web_Bind_ShareRequest env c with
      | Err err => ret (response_Error 400 "error parsing body" err)
      | Ok shareRequest =>
          let dashboardLink := ShareToSlack_link shareRequest in
          let blocks :=
            ShareToSlack_blocks dashboardLink (Dashboard_Title env dashboard)
              shareRequest in
          r <- ShareToSlack_loop blocks (ShareRequest_ChannelIds shareRequest) ;;
          match r with
          | Some resp => ret resp
          | None => ret (response_JSON http_StatusOK JNil)
          end
      end
  end.

(** *** getImageURL, renderDashboard *)

Definition getImageURL (imageName : string) : string :=
  if negb (String.eqb (Cfg_RendererCallbackUrl (hs_Cfg hs)) "") then
    Cfg_RendererCallbackUrl (hs_Cfg hs) +:+ "public/img/attachments" +:+ "/" +:+ imageName
  else
    let protocol := scheme_switch (Cfg_Protocol (hs_Cfg hs)) in
    let subPath :=
      if Cfg_ServeFromSubPath (hs_Cfg hs) then Cfg_AppSubURL (hs_Cfg hs) else "" in
    let domain := domain_of_addr (Cfg_HTTPAddr (hs_Cfg hs)) in
    protocol +:+ "://" +:+ domain +:+ ":" +:+ Cfg_HTTPPort (hs_Cfg hs) +:+ subPath
      +:+ "/" +:+ "public/img/attachments" +:+ "/" +:+ imageName.

Definition renderDashboard (ctx : Context_) (renderPath : string)
  : M State (Result string) :=
  r <- call (RenderService_Render hs ctx
               {| Opts_Timeout := 60 * time_Second;
                  Opts_OrgID := 1;
                  Opts_OrgRole := roletype_RoleAdmin env;
                  Opts_Width := 1600;
                  Opts_Height := 800;
                  Opts_Path := renderPath;
                  Opts_ConcurrentLimit :=
                    Cfg_RendererConcurrentRequestLimit (hs_Cfg hs);
                  Opts_DeviceScaleFactor := 1;
                  Opts_Theme := models_ThemeDark env |}) ;;
  match r with
  | Err err => ret (Err err)
  | Ok result => ret (Ok (RenderResult_FilePath result))
  end.

(** *** sendUnfurlEvent *)

Definition sendUnfurlEvent_blocks (dashboardTitle imageURL : string) (link : Link)
  : list Block :=
  [ {| Block_Type := "header";
       Block_Text := Some {| Text_Type := "plain_text"; Text_Text := dashboardTitle |};
       Block_Accessory := None; Block_ImageURL := ""; Block_Title := None;
       Block_AltText := ""; Block_Elements := [] |};
    {| Block_Type := "section";
       Block_Text := Some {| Text_Type := "plain_text";
                             Text_Text := "Here is the dashboard that I wanted to show you" |};
       Block_Accessory := None; Block_ImageURL := ""; Block_Title := None;
       Block_AltText := ""; Block_Elements := [] |};
    {| Block_Type := "image";
       Block_Text := None; Block_Accessory := None;
       Block_ImageURL := imageURL;
       Block_Title := Some {| Text_Type := "plain_text";
                              Text_Text := "Dashboard preview" |};
       Block_AltText := "dashboard preview"; Block_Elements := [] |};
    {| Block_Type := "actions";
       Block_Text := None; Block_Accessory := None; Block_ImageURL := "";
       Block_Title := None; Block_AltText := "";
       Block_Elements :=
         [ {| Element_Type := "button";
              Element_Text := Some {| Text_Type := "plain_text";
                                      Text_Text := "View Dashboard" |};
              Element_Style := "primary";
              Element_Value := Link_URL link;
              Element_URL := Link_URL link |} ] |} ].

Definition sendUnfurlEvent_unfurl (dashboardTitle imageURL : string) (link : Link)
  : Unfurl :=
  {| Unfurl_Blocks := sendUnfurlEvent_blocks dashboardTitle imageURL link |}.

(** The body of the loop over the links:
    [eventPayload.Unfurls[link.URL] = Unfurl{...}]. *)
Definition sendUnfurlEvent_store (dashboardTitle imageURL : string)
    (unfurls : Unfurls) (link : Link) : Unfurls :=
  <[Link_URL link := sendUnfurlEvent_unfurl dashboardTitle imageURL link]> unfurls.

(** The payload [sendUnfurlEvent] builds before marshalling: the loop over
    the links stores one [Unfurl] under each link's URL. *)
Definition sendUnfurlEvent_payload (linkEvent : EventPayload)
    (imagePath dashboardTitle : string) : UnfurlEventPayload :=
  let imageFileName := filepath_Base env imagePath in
  let imageURL := getImageURL imageFileName in
  {| UnfurlEventPayload_Channel := Event_Channel (EventPayload_Event linkEvent);
     UnfurlEventPayload_TS := Event_MessageTS (EventPayload_Event linkEvent);
     UnfurlEventPayload_Unfurls :=
       foldl (sendUnfurlEvent_store dashboardTitle imageURL) ∅
         (Event_Links (EventPayload_Event linkEvent)) |}.

Definition sendUnfurlEvent (c : Context_) (linkEvent : EventPayload)
    (imagePath dashboardTitle : string) : M State (option error) :=
  let eventPayload := sendUnfurlEvent_payload linkEvent imagePath dashboardTitle in
  match json_Marshal env (JUnfurlEventPayload eventPayload) with
  | Err err => ret (Some (fmt_Errorf_w "client: could not create body: " err))
  | Ok b =>
      hs_log_Info "Posting to slack api" [("eventPayload", LogStr b)] ;;;
      let '(req, err) :=
        http_NewRequest http_MethodPost "https://slack.com/api/chat.unfurl" b in
      req <- req_Header_Add req "Content-Type" "application/json" ;;
      req <- req_Header_Add req "Authorization"
               ("Bearer " +:+ Cfg_SlackToken (hs_Cfg hs)) ;;
      match err with
      | Some err => ret (Some (fmt_Errorf_w "client: could not create request: " err))
      | None =>
          result <- http_Do req ;;
          match Do_err result with
          | Some err =>
              ret (Some (fmt_Errorf_w "client: error making http request: " err))
          | None =>
              defer
                (body <- res_Body (Do_res result) ;;
                 cerr <- call (Body_Close env body) ;;
                 match cerr with
                 | Some err =>
                     hs_log_Error "failed to close response body" [("err", LogErr err)]
                 | None => ret tt
                 end)
                (body <- res_Body (Do_res result) ;;
                 read <- call (io_ReadAll env body) ;;
                 let '(resBody, err) := read in
                 match err with
                 | Some err =>
                     ret (Some (fmt_Errorf_w "client: could not read response body: " err))
                 | None =>
                     hs_log_Info "successfully sent unfurl event payload"
                       [("body", LogStr resBody)] ;;;
                     ret None
                 end)
          end
      end
  end.

(** *** handleLinkSharedEvent *)

Definition handleLinkSharedEvent (event : EventPayload) : M State unit :=
  let ctx := context_Background in
  link0 <- index (Event_Links (EventPayload_Event event)) 0 ;;
  let '(renderPath, dashboardUID) := extractURLInfo (Link_URL link0) in
  if String.eqb renderPath "" then
    hs_log_Error "fail to extract render path from link" []
  else
    r <- call (DashboardService_GetDashboard hs ctx
                 {| GetDashboardQuery_UID := dashboardUID |}) ;;
    match r with
    | Err err =>
        hs_log_Error "fail to get dashboard"
          [("err", LogErr err); ("dashboard UID", LogStr dashboardUID)]
    | Ok dashboard =>
        r <- renderDashboard ctx renderPath ;;
        match r with
        | Err err =>
            hs_log_Error "fail to render dashboard for Slack preview"
              [("err", LogErr err)]
        | Ok imagePath =>
            err <- sendUnfurlEvent ctx event imagePath (Dashboard_Title env dashboard) ;;
            match err with
            | Some err =>
                hs_log_Error "fail to send unfurl event to Slack" [("err", LogErr err)]
            | None => ret tt
            end
        end
    end.

(** *** AcknowledgeSlackEvent *)

Definition AcknowledgeSlackEvent (c : ReqContext) : M State Response :=
  match web_Bind_EventPayload env c with
  | Err err => ret (response_Error http_StatusBadRequest "error parsing body" err)
  | Ok eventPayload =>
      let unhandled :=
        ret (response_Error http_StatusBadRequest "not handling this event type"
               (errorString "not handling this event type")) in
      if String.eqb (EventPayload_Type eventPayload) "url_verification" then
        ret (response_JSON http_StatusOK
               (JEventChallengeAck
                  {| EventChallengeAck_Challenge :=
                       EventPayload_Challenge eventPayload |}))
      else if String.eqb (EventPayload_Type eventPayload) "event_callback" then
        if String.eqb (Event_Type (EventPayload_Event eventPayload)) "link_shared"
           && String.eqb (Event_Source (EventPayload_Event eventPayload))
                "conversations_history"
        then
          defer (handleLinkSharedEvent eventPayload)
                (ret (response_Empty http_StatusOK))
        else unhandled
      else unhandled
  end.

End Model.

Unset Implicit Arguments.

Arguments Log {ReadCloser} lvl msg ctx.

(** The outbound HTTP requests among the effects, oldest first. *)
Definition http_calls {ReadCloser} (es : list (Effect ReadCloser)) : list Request :=
  omap (fun e => match e with HttpDo req _ => Some req | Log _ _ _ => None end) es.

(** The request [ShareToSlack] posts for one channel, given its marshalled
    body. *)
Definition postMessage_request (token jsonBody : string) : Request :=
  Header_Add
    (Header_Add
       {| Request_Method := http_MethodPost;
          Request_URL := "https://slack.com/api/chat.postMessage";
          Request_Header := ∅; Request_Body := jsonBody |}
       "Content-Type" "application/json; charset=utf-8")
    "Authorization" ("Bearer " +:+ token).

(** The value [ShareToSlack] marshals for one channel. *)
Definition postMessage_of (blocks : list Block) (channelId : string) : JSONValue :=
  JPostMessageRequest
    {| PostMessageRequest_Channel := channelId; PostMessageRequest_Blocks := blocks |}.

Definition chat_postMessage : string := "https://slack.com/api/chat.postMessage".

Definition chat_unfurl : string := "https://slack.com/api/chat.unfurl".

(** The request [sendUnfurlEvent] posts, given its marshalled body. *)
Definition unfurl_request (token jsonBody : string) : Request :=
  Header_Add
    (Header_Add
       {| Request_Method := http_MethodPost;
          Request_URL := "https://slack.com/api/chat.unfurl";
          Request_Header := ∅; Request_Body := jsonBody |}
       "Content-Type" "application/json")
    "Authorization" ("Bearer " +:+ token).

(** ** A concrete deployment, for running the handlers

    The world is the number of HTTP calls made so far; a response body
    handle is its content; a dashboard is its title. *)

Module Sample.

Definition cfg : Cfg :=
  {| Cfg_Protocol := "http"; Cfg_HTTPAddr := "0.0.0.0"; Cfg_HTTPPort := "3000";
     Cfg_SlackToken := "xoxb-1"; Cfg_RendererCallbackUrl := "";
     Cfg_ServeFromSubPath := false; Cfg_AppSubURL := "";
     Cfg_RendererConcurrentRequestLimit := 30 |}.

(** Dashboard service: the uid "missing" is not found. *)
Definition hs : HTTPServer nat string :=
  {| hs_Cfg := cfg;
     DashboardService_GetDashboard := fun _ q w =>
       if String.eqb (GetDashboardQuery_UID q) "missing"
       then (Err (errorString "Dashboard not found"), w)
       else (Ok ("Dashboard " +:+ GetDashboardQuery_UID q), w);
     RenderService_Render := fun _ opts w =>
       if String.eqb (Opts_Path opts) "/d/broken/x"
       then (Err (errorString "rendering failed"), w)
       else (Ok {| RenderResult_FilePath := "/var/lib/grafana/png/shot.png" |}, w) |}.

(** Both request types hold only strings, slices and pointers to structs
    of strings: [json.Marshal] has no error for them. *)
Definition marshal (v : JSONValue) : Result string :=
  match v with
  | JPostMessageRequest r => Ok ("postMessage to " +:+ PostMessageRequest_Channel r)
  | JUnfurlEventPayload p => Ok ("unfurl in " +:+ UnfurlEventPayload_Channel p)
  end.

(** [down_at]: the index of the HTTP call that gets no response;
    [share], [event]: what [web.Bind] decodes. *)
Definition env (down_at : option nat)
    (share : Result ShareRequest) (event : Result (EventPayload unit))
  : Env nat string unit string :=
  {| setting_HTTPScheme := "http";
     setting_HTTP2Scheme := "h2";
     setting_HTTPSScheme := "https";
     roletype_RoleAdmin := "Admin";
     models_ThemeDark := "dark";
     Dashboard_Title := fun d => d;
     filepath_Base := fun _ => "shot.png";
     json_Marshal := marshal;
     http_NewRequest_check := fun _ _ => None;
     web_Bind_ShareRequest := fun _ => share;
     web_Bind_EventPayload := fun _ => event;
     http_DefaultClient_Do := fun _ w =>
       (if decide (down_at = Some w)
        then {| Do_res := None;
                Do_err := Some (errorString "dial tcp: connection refused") |}
        else {| Do_res := Some {| Response_Body := "ok" |}; Do_err := None |},
        S w);
     io_ReadAll := fun body w => ((body, None), w);
     Body_Close := fun _ w => (None, w) |}.

(** The same deployment with an [http.NewRequest] that refuses every
    request line. *)
Definition env_refusing (share : Result ShareRequest)
    (event : Result (EventPayload unit)) : Env nat string unit string :=
  let e := env None share event in
  {| setting_HTTPScheme := setting_HTTPScheme e;
     setting_HTTP2Scheme := setting_HTTP2Scheme e;
     setting_HTTPSScheme := setting_HTTPSScheme e;
     roletype_RoleAdmin := roletype_RoleAdmin e;
     models_ThemeDark := models_ThemeDark e;
     Dashboard_Title := Dashboard_Title e;
     filepath_Base := filepath_Base e;
     json_Marshal := json_Marshal e;
     http_NewRequest_check := fun _ _ => Some (errorString "net/http: invalid method");
     web_Bind_ShareRequest := web_Bind_ShareRequest e;
     web_Bind_EventPayload := web_Bind_EventPayload e;
     http_DefaultClient_Do := http_DefaultClient_Do e;
     io_ReadAll := io_ReadAll e;
     Body_Close := Body_Close e |}.

Definition request (uid : string) : ReqContext :=
  {| Req_Params := {[ ":uid" := uid ]}; Req_Body := "" |}.

Definition share3 : ShareRequest :=
  {| ShareRequest_ChannelIds := ["C1"; "C2"; "C3"];
     ShareRequest_Message := "have a look";
     ShareRequest_ImagePreviewUrl := "http://localhost:3000/public/img/attachments/p.png";
     ShareRequest_PanelId := "";
     ShareRequest_DashboardPath := "/d/abc/cpu" |}.

Definition event (type etype source challenge : string) (links : list Link)
  : EventPayload unit :=
  {| EventPayload_Token := ""; EventPayload_TeamID := "T1";
     EventPayload_APIAppID := "A1";
     EventPayload_Event :=
       {| Event_Type := etype; Event_User := "U1"; Event_Channel := "C1";
          Event_MessageTS := "1700000000.000100"; Event_Links := links;
          Event_Source := source; Event_UnfurlID := "";
          Event_IsBotUserMember := true; Event_EventTS := "" |};
     EventPayload_Type := type; EventPayload_EventID := "Ev1";
     EventPayload_EventTime := 1700000000; EventPayload_Authorizations := [];
     EventPayload_IsExtSharedChannel := false; EventPayload_EventContext := "";
     EventPayload_Challenge := challenge |}.

Definition link (url : string) : Link :=
  {| Link_URL := url; Link_Domain := "grafana.example" |}.

Definition st0 : State nat string := {| world := 0; effects := [] |}.

Definition no_body {A} : Result A := Err (errorString "unexpected end of JSON input").

(** A share request for three channels, in three deployments: all well;
    the dashboard missing; the second HTTP call unanswered. *)
Definition share_ok : Outcome Response * State nat string :=
  ShareToSlack (env None (Ok share3) no_body) hs (request "abc") st0.

Definition share_missing : Outcome Response * State nat string :=
  ShareToSlack (env None (Ok share3) no_body) hs (request "missing") st0.

Definition share_down : Outcome Response * State nat string :=
  ShareToSlack (env (Some 1) (Ok share3) no_body) hs (request "abc") st0.

(** The block list of that share request. *)
Definition blocks3 : list Block :=
  ShareToSlack_blocks
    (ShareToSlack_link (env None (Ok share3) no_body) hs share3)
    "Dashboard abc" share3.

(** A qualifying link-shared event without links, and one with two. *)
Definition no_links : EventPayload unit :=
  event "event_callback" "link_shared" "conversations_history" "" [].

Definition two_links : EventPayload unit :=
  event "event_callback" "link_shared" "conversations_history" ""
    [link "https://grafana.example/d/abc/cpu"; link "https://grafana.example/d/zzz/mem"].

Definition verification : EventPayload unit :=
  event "url_verification" "" "" "abc123" [].

End Sample.

Definition is_Ok {A} (r : Result A) : bool :=
  match r with Ok _ => true | Err _ => false end.

(** The bytes [json.Marshal] produced for a value, when it produced any. *)
Definition marshal_body {World ReadCloser Authorization Dashboard}
    (env : Env World ReadCloser Authorization Dashboard) (v : JSONValue) : string :=
  match json_Marshal env v with Ok b => b | Err _ => "" end.

(** Every HTTP call recorded so far came back with a response. *)
Definition all_responded {ReadCloser} (es : list (Effect ReadCloser)) : Prop :=
  Forall (fun e => match e with
                   | HttpDo _ r => Do_res r <> None
                   | Log _ _ _ => True
                   end) es.

(** An event the dispatcher hands to the unfurl path. *)
Definition qualifying {Authorization} (ev : EventPayload Authorization) : Prop :=
  EventPayload_Type ev = "event_callback"
  /\ Event_Type (EventPayload_Event ev) = "link_shared"
  /\ Event_Source (EventPayload_Event ev) = "conversations_history".

(** ** The channel list and preview handlers *)

Definition http_StatusInternalServerError : nat := 500.

Record PreviewRequest : Type := {
  PreviewRequest_DashboardURL : string;
}.

Record PreviewResponse : Type := {
  PreviewResponse_PreviewURL : string;
}.

(** A handler response whose JSON body has type [B]: what
    [response.Error] and [response.JSON] build for the two handlers
    below, whose bodies are a channel list and a [PreviewResponse]. *)
Inductive ResponseOf (B : Type) : Type :=
| responseOf_Error (status : nat) (message : string) (err : error)
| responseOf_JSON (status : nat) (body : B).
Arguments responseOf_Error {B} status message err.
Arguments responseOf_JSON {B} status body.

Definition conversations_list : string := "https://slack.com/api/conversations.list".

(** The request [GetSlackChannels] posts; it has no body. *)
Definition conversations_request (token : string) : Request :=
  Header_Add
    (Header_Add
       {| Request_Method := http_MethodPost;
          Request_URL := "https://slack.com/api/conversations.list";
          Request_Header := ∅; Request_Body := "" |}
       "Content-Type" "application/json; charset=utf-8")
    "Authorization" ("Bearer " +:+ token).

Set Implicit Arguments.

Section MoreHandlers.

Variables (World ReadCloser Authorization Dashboard : Type).

(** [dtos.SlackChannels] and the type of its [Channels] field, declared
    elsewhere in the repository. *)
Variables (SlackChannels Channels : Type).

(** What the two handlers use beyond [Env]: the [Channels] field,
    [json.Unmarshal] into a [dtos.SlackChannels], and [web.Bind] into a
    [PreviewRequest]. *)
Record Env2 : Type := {
  SlackChannels_Channels : SlackChannels -> Channels;
  json_Unmarshal_SlackChannels : string -> Result SlackChannels;
  web_Bind_PreviewRequest : ReqContext -> Result PreviewRequest;
}.

Variable env : Env World ReadCloser Authorization Dashboard.
Variable env2 : Env2.
Variable hs : HTTPServer World Dashboard.

Local Open Scope go_scope.

(** *** GetSlackChannels *)

Definition GetSlackChannels (c : ReqContext)
  : M (State World ReadCloser) (ResponseOf Channels) :=
  let '(req, err) :=
    http_NewRequest env http_MethodPost "https://slack.com/api/conversations.list" "" in
  req <- req_Header_Add req "Content-Type" "application/json; charset=utf-8" ;;
  req <- req_Header_Add req "Authorization"
           ("Bearer " +:+ Cfg_SlackToken (hs_Cfg hs)) ;;
  match err with
  | Some err =>
      ret (responseOf_Error http_StatusInternalServerError "could not create request" err)
  | None =>
      resp <- http_Do env req ;;
      match Do_err resp with
      | Some err =>
          ret (responseOf_Error http_StatusInternalServerError
                 "error making http request" err)
      | None =>
          defer
            (body <- res_Body (Do_res resp) ;;
             cerr <- call (Body_Close env body) ;;
             match cerr with
             | Some err =>
                 hs_log_Error "failed to close response body" [("err", LogErr err)]
             | None => ret tt
             end)
            (body <- res_Body (Do_res resp) ;;
             read <- call (io_ReadAll env body) ;;
             let '(b, err) := read in
             match err with
             | Some err =>
                 ret (responseOf_Error http_StatusInternalServerError
                        "could not read response body" err)
             | None =>
                 match json_Unmarshal_SlackChannels env2 b with
                 | Err err =>
                     ret (responseOf_Error http_StatusInternalServerError
                            "could not unmarshall response" err)
                 | Ok result =>
                     ret (responseOf_JSON http_StatusOK
                            (SlackChannels_Channels env2 result))
                 end
             end)
      end
  end.

(** *** GeneratePreview *)

Definition GeneratePreview (c : ReqContext)
  : M (State World ReadCloser) (ResponseOf PreviewResponse) :=
  match web_Bind_PreviewRequest env2 c with
  | Err err => ret (responseOf_Error http_StatusBadRequest "error parsing body" err)
  | Ok previewRequest =>
      hs_log_Info "Generating preview"
        [("dashboard_url", LogStr (PreviewRequest_DashboardURL previewRequest))] ;;;
      r <- renderDashboard env hs (Req_Context c)
             (PreviewRequest_DashboardURL previewRequest) ;;
      match r with
      | Err err =>
          ret (responseOf_Error http_StatusInternalServerError "Rendering failed" err)
      | Ok filePath =>
          let imageFileName := filepath_Base env filePath in
          let imageURL := getImageURL env hs imageFileName in
          ret (responseOf_JSON http_StatusOK
                 {| PreviewResponse_PreviewURL := imageURL |})
      end
  end.

End MoreHandlers.

Unset Implicit Arguments.

(** What makes a request an authenticated POST to [url]: the method, the
    address, and exactly one Authorization value, the bearer token. *)
Definition authenticated_post (url token : string) (req : Request) : Prop :=
  Request_Method req = "POST"
  /\ Request_URL req = url
  /\ Request_Header req !! "Authorization" = Some ["Bearer " +:+ token].

(** The part of an image URL that does not depend on the image: the
    callback URL when one is configured, the composed address up to the
    slash before the attachment path otherwise. *)
Definition image_base {World ReadCloser Authorization Dashboard}
    (env : Env World ReadCloser Authorization Dashboard)
    (hs : HTTPServer World Dashboard) : string :=
  if negb (String.eqb (Cfg_RendererCallbackUrl (hs_Cfg hs)) "") then
    Cfg_RendererCallbackUrl (hs_Cfg hs)
  else
    scheme_switch env (Cfg_Protocol (hs_Cfg hs)) +:+ "://"
      +:+ domain_of_addr (Cfg_HTTPAddr (hs_Cfg hs)) +:+ ":"
      +:+ Cfg_HTTPPort (hs_Cfg hs)
      +:+ (if Cfg_ServeFromSubPath (hs_Cfg hs) then Cfg_AppSubURL (hs_Cfg hs) else "")
      +:+ "/".

(** ** More sample data *)

Module SampleMore.
Import Sample.

(** A Slack channel list is its JSON text; its channels are that text. *)
Definition env2 (preview : Result PreviewRequest) : Env2 string string :=
  {| SlackChannels_Channels := fun s => s;
     json_Unmarshal_SlackChannels := fun b =>
       if String.eqb b "ok" then Ok "general,random"
       else Err (errorString "invalid character");
     web_Bind_PreviewRequest := fun _ => preview |}.

Definition preview : PreviewRequest :=
  {| PreviewRequest_DashboardURL := "/d/abc/cpu" |}.

(** A qualifying event whose first link has no dashboard segment. *)
Definition not_a_dashboard : EventPayload unit :=
  event "event_callback" "link_shared" "conversations_history" ""
    [link "https://grafana.example/explore"].

Definition share0 : ShareRequest :=
  {| ShareRequest_ChannelIds := [];
     ShareRequest_Message := "have a look";
     ShareRequest_ImagePreviewUrl := "";
     ShareRequest_PanelId := "";
     ShareRequest_DashboardPath := "/d/abc/cpu" |}.

End SampleMore.

(* ================================================================== *)
(** * Properties *)
(* ================================================================== *)

Module StrFacts.


Lemma append_assoc (a b c : string) : (a +:+ b) +:+ c = a +:+ (b +:+ c).
Proof. induction a as [|x a IH]; simpl; [reflexivity | now rewrite IH]. Qed.

Lemma length_append (a b : string) :
  String.length (a +:+ b) = String.length a + String.length b.
Proof. induction a as [|x a IH]; simpl; [reflexivity | now rewrite IH]. Qed.

Lemma substring_whole (s t : string) :
  substring 0 (String.length s) (s +:+ t) = s.
Proof. induction s as [|x s IH]; simpl; [now destruct t | now rewrite IH]. Qed.

(** Slicing [s[|a| : |a|+|b|]] out of [a ++ b ++ c] gives [b]. *)
Lemma substring_middle (a b c : string) :
  substring (String.length a) (String.length b) (a +:+ b +:+ c) = b.
Proof. induction a as [|x a IH]; simpl; [apply substring_whole | exact IH]. Qed.

Lemma has_char_append (c : ascii) (a b : string) :
  has_char c (a +:+ b) = has_char c a || has_char c b.
Proof.
  induction a as [|x a IH]; simpl; [reflexivity|].
  destruct (Ascii.eqb x c); [reflexivity | exact IH].
Qed.

End StrFacts.

(** ** Facts about the matcher *)

Module RegexpFacts.
Import Regexp StrFacts.

Section Star.
Context {R : Type}.
Implicit Types (k : nat -> string -> option R) (cl : CharClass).

(** The longest iteration wins when the continuation accepts it. *)
Lemma star_greedy_longest cl a b pos k r :
  all_in cl a = true -> stops cl b = true ->
  k (pos + String.length a) b = Some r ->
  star_greedy cl pos (a +:+ b) k = Some r.
Proof.
  revert pos. induction a as [|c a IH]; intros pos Ha Hb Hk; simpl in *.
  - rewrite Nat.add_0_r in Hk.
    destruct b as [|c b]; simpl in *; [exact Hk|].
    now destruct (class_matches cl c).
  - apply andb_prop in Ha as [Hc Ha]. rewrite Hc.
    rewrite (IH (S pos)); auto.
    rewrite <- Hk. f_equal. lia.
Qed.


(** A result always comes from the continuation at some split whose
    first part the class accepts. *)
Lemma star_greedy_some_inv cl s pos k r :
  star_greedy cl pos s k = Some r ->
  exists a b, s = a +:+ b /\ all_in cl a = true /\
              k (pos + String.length a) b = Some r.
Proof.
  revert pos. induction s as [|c s IH]; intros pos H; simpl in H.
  - exists "", "". simpl. now rewrite Nat.add_0_r.
  - assert (Hhere : k pos (String c s) = Some r ->
              exists a b, String c s = a +:+ b /\ all_in cl a = true /\
                          k (pos + String.length a) b = Some r).
    { intros Hk. exists "", (String c s). simpl. now rewrite Nat.add_0_r. }
    destruct (class_matches cl c) eqn:Hc; [|auto].
    destruct (star_greedy cl (S pos) s k) as [r'|] eqn:Hs; [|auto].
    injection H as ->.
    destruct (IH _ Hs) as (a & b & -> & Ha & Hk).
    exists (String c a), b. simpl. rewrite Hc, Ha.
    repeat split. rewrite <- Hk. f_equal. lia.
Qed.

End Star.

Lemma find_from_eq r pos s :
  find_from r pos s =
  match run r pos s [] accept with
  | Some (e, cs) => Some (pos, e, cs)
  | None =>
      match s with
      | EmptyString => None
      | String _ s' => find_from r (S pos) s'
      end
  end.
Proof. now destruct s. Qed.


Lemma no_LF_all_in s : no_LF s = true -> all_in AnyCharNotNL s = true.
Proof.
  unfold no_LF. induction s as [|c s IH]; simpl; [reflexivity|].
  destruct (Ascii.eqb c LF); simpl; [discriminate | exact IH].
Qed.

End RegexpFacts.

(** ** Link extractor *)

Module ExtractFacts.
Import Regexp StrFacts RegexpFacts.

Lemma strip_prefix_spec p s t : strip_prefix p s = Some t <-> s = p +:+ t.
Proof.
  revert s. induction p as [|a p IH]; intros s; simpl.
  - split; [now intros [= ->] | now intros ->].
  - destruct s as [|b s]; [split; discriminate|].
    destruct (Ascii.eqb a b) eqn:E.
    + apply Ascii.eqb_eq in E as ->. rewrite IH.
      split; [now intros -> | now intros [= ->]].
    + split; [discriminate|]. intros [= -> _].
      now rewrite Ascii.eqb_refl in E.
Qed.

Lemma has_char_split c s :
  has_char c s = true ->
  exists a b, s = a +:+ String c b /\ has_char c a = false.
Proof.
  induction s as [|x s IH]; simpl; [discriminate|].
  destruct (Ascii.eqb x c) eqn:E.
  - apply Ascii.eqb_eq in E as ->. intros _. now exists "", s.
  - intros H. destruct (IH H) as (a & b & -> & Ha).
    exists (String x a), b. simpl. now rewrite E.
Qed.

(** [starts_segment] says: /d/, a slash-free uid, a slash, anything. *)
Lemma starts_segment_spec s :
  starts_segment s = true <->
  exists uid slug, no_slash uid = true /\ s = "/d/" +:+ uid +:+ "/" +:+ slug.
Proof.
  unfold starts_segment, no_slash. split.
  - destruct (strip_prefix "/d/" s) as [t|] eqn:E; [|discriminate].
    apply strip_prefix_spec in E as ->. intros H.
    destruct (has_char_split _ _ H) as (a & b & -> & Ha).
    exists a, b. now rewrite Ha.
  - intros (uid & slug & _ & ->).
    replace (strip_prefix "/d/" ("/d/" +:+ uid +:+ "/" +:+ slug))
      with (Some (uid +:+ "/" +:+ slug)) by (symmetry; now apply strip_prefix_spec).
    rewrite has_char_append. simpl. apply orb_true_r.
Qed.

Lemma contains_segment_cons c s :
  contains_segment (String c s) = starts_segment (String c s) || contains_segment s.
Proof. reflexivity. Qed.

Lemma contains_segment_spec s :
  contains_segment s = true <->
  exists pre uid slug,
    no_slash uid = true /\ s = pre +:+ "/d/" +:+ uid +:+ "/" +:+ slug.
Proof.
  split.
  - induction s as [|c s IH]; [discriminate|].
    rewrite contains_segment_cons. intros H. apply orb_prop in H as [H|H].
    + apply starts_segment_spec in H as (uid & slug & Hu & E).
      now exists "", uid, slug.
    + destruct (IH H) as (pre & uid & slug & Hu & ->).
      now exists (String c pre), uid, slug.
  - intros (pre & uid & slug & Hu & ->).
    induction pre as [|c pre IH].
    + assert (H : starts_segment ("/d/" +:+ uid +:+ "/" +:+ slug) = true)
        by (apply starts_segment_spec; eauto).
      change ("" +:+ "/d/" +:+ uid +:+ "/" +:+ slug)
        with (String "/" ("d/" +:+ uid +:+ "/" +:+ slug)) in *.
      rewrite contains_segment_cons.
      change (String "/" ("d/" +:+ uid +:+ "/" +:+ slug))
        with ("/d/" +:+ uid +:+ "/" +:+ slug).
      now rewrite H.
    + change (String c pre +:+ "/d/" +:+ uid +:+ "/" +:+ slug)
        with (String c (pre +:+ "/d/" +:+ uid +:+ "/" +:+ slug)).
      rewrite contains_segment_cons, IH. apply orb_true_r.
Qed.





Lemma run_re_eq {R} pos s caps (k : Cont R) :
  run re pos s caps k
  = star_greedy AnyCharNotNL pos s (fun pos' s' => run re_group1 pos' s' caps k).
Proof. reflexivity. Qed.



End ExtractFacts.

Module ExtractURLInfo.
Import Regexp StrFacts RegexpFacts ExtractFacts.




End ExtractURLInfo.

(** ** The handlers *)

Section HandlerFacts.

Variables (World ReadCloser Authorization Dashboard : Type).
Variable env : Env World ReadCloser Authorization Dashboard.
Variable hs : HTTPServer World Dashboard.

Implicit Types (st : State World ReadCloser) (c : ReqContext)
  (ev : EventPayload Authorization).

Lemma http_calls_app (es1 es2 : list (Effect ReadCloser)) :
  http_calls (es1 ++ es2) = http_calls es1 ++ http_calls es2.
Proof. apply omap_app. Qed.

(** *** Event dispatcher *)

(** C5.  A decoded payload of type "url_verification" is answered with
    status 200 and a body whose only field, challenge, is the inbound
    challenge unchanged; nothing else happens. *)
Theorem AcknowledgeSlackEvent_url_verification c ev st :
  web_Bind_EventPayload env c = Ok ev ->
  EventPayload_Type ev = "url_verification" ->
  AcknowledgeSlackEvent env hs c st
  = (Returned
       (response_JSON 200
          (JEventChallengeAck
             {| EventChallengeAck_Challenge := EventPayload_Challenge ev |})),
     st).
Proof.
  intros Hbind Htype. unfold AcknowledgeSlackEvent.
  rewrite Hbind, Htype. reflexivity.
Qed.

(** A qualifying event runs the unfurl path before the handler is left:
    the empty 200 response is only returned if that path does not panic. *)
Lemma AcknowledgeSlackEvent_qualifying c ev st :
  web_Bind_EventPayload env c = Ok ev -> qualifying ev ->
  AcknowledgeSlackEvent env hs c st
  = match handleLinkSharedEvent env hs ev st with
    | (Returned _, st') => (Returned (response_Empty 200), st')
    | (Panicked p, st') => (Panicked p, st')
    end.
Proof.
  intros Hbind (Ht & Het & Hsrc). unfold AcknowledgeSlackEvent.
  rewrite Hbind, Ht, Het, Hsrc. reflexivity.
Qed.

(** Every other decoded payload that is not a verification request is
    refused with a 400, and nothing else happens. *)
Lemma AcknowledgeSlackEvent_unhandled c ev st :
  web_Bind_EventPayload env c = Ok ev ->
  EventPayload_Type ev <> "url_verification" -> ~ qualifying ev ->
  AcknowledgeSlackEvent env hs c st
  = (Returned
       (response_Error 400 "not handling this event type"
          (errorString "not handling this event type")),
     st).
Proof.
  intros Hbind Hnv Hnq. unfold AcknowledgeSlackEvent. rewrite Hbind.
  destruct (String.eqb_spec (EventPayload_Type ev) "url_verification"); [done|].
  destruct (String.eqb_spec (EventPayload_Type ev) "event_callback"); [|done].
  destruct (String.eqb_spec (Event_Type (EventPayload_Event ev)) "link_shared");
    [|done].
  destruct (String.eqb_spec (Event_Source (EventPayload_Event ev))
              "conversations_history"); [|done].
  exfalso. apply Hnq. now repeat split.
Qed.

(** *** Share handler *)

Lemma ShareToSlack_fetch_error_run c st err w' :
  DashboardService_GetDashboard hs (Req_Context c)
    {| GetDashboardQuery_UID := web_Params c ":uid" |} (world st) = (Err err, w') ->
  ShareToSlack env hs c st
  = (Returned (response_Error 400 "error parsing body" err),
     {| world := w';
        effects :=
          effects st ++
          [Log LvlError "fail to get dashboard"
             [("err", LogErr err); ("dashboard UID", LogStr (web_Params c ":uid"))]] |}).
Proof. intros Hget. unfold ShareToSlack, bind, call. now rewrite Hget. Qed.

(** C8.  When the dashboard fetch fails, the handler logs the failure and
    returns a 400 carrying the label "error parsing body" and the fetch
    error; no outbound HTTP call is made. *)
Theorem ShareToSlack_dashboard_fetch_fails c st err w' :
  DashboardService_GetDashboard hs (Req_Context c)
    {| GetDashboardQuery_UID := web_Params c ":uid" |} (world st) = (Err err, w') ->
  ShareToSlack env hs c st
  = (Returned (response_Error 400 "error parsing body" err),
     {| world := w';
        effects :=
          effects st ++
          [Log LvlError "fail to get dashboard"
             [("err", LogErr err); ("dashboard UID", LogStr (web_Params c ":uid"))]] |})
  /\ http_calls (effects (snd (ShareToSlack env hs c st))) = http_calls (effects st).
Proof.
  intros Hget. pose proof (ShareToSlack_fetch_error_run c st err w' Hget) as E.
  split; [exact E|].
  rewrite E. simpl. rewrite http_calls_app. simpl. apply app_nil_r.
Qed.

(** The four ways one iteration of the channel loop can go. *)
Lemma ShareToSlack_channel_marshal_fails blocks channelId st err :
  json_Marshal env (postMessage_of blocks channelId) = Err err ->
  ShareToSlack_channel env hs blocks channelId st
  = (Returned (Some (response_Error 400 "error parsing body" err)), st).
Proof.
  intros H. unfold ShareToSlack_channel. unfold postMessage_of in H.
  now rewrite H.
Qed.

Lemma ShareToSlack_channel_nil_request blocks channelId st b e :
  json_Marshal env (postMessage_of blocks channelId) = Ok b ->
  http_NewRequest_check env http_MethodPost chat_postMessage = Some e ->
  ShareToSlack_channel env hs blocks channelId st = (Panicked NilDereference, st).
Proof.
  intros H Hc. unfold ShareToSlack_channel, http_NewRequest.
  unfold postMessage_of in H. unfold chat_postMessage in Hc.
  now rewrite H, Hc.
Qed.

Lemma ShareToSlack_channel_nil_response blocks channelId st b r w' :
  json_Marshal env (postMessage_of blocks channelId) = Ok b ->
  http_NewRequest_check env http_MethodPost chat_postMessage = None ->
  let req := postMessage_request (Cfg_SlackToken (hs_Cfg hs)) b in
  http_DefaultClient_Do env req (world st) = (r, w') ->
  Do_res r = None ->
  ShareToSlack_channel env hs blocks channelId st
  = (Panicked NilDereference,
     {| world := w'; effects := effects st ++ [HttpDo req r] |}).
Proof.
  intros H Hc req Hdo Hres. unfold ShareToSlack_channel, http_NewRequest.
  unfold postMessage_of in H. unfold chat_postMessage in Hc.
  rewrite H, Hc. unfold bind, http_Do, req_Header_Add, bind, call, emit. simpl.
  unfold req, postMessage_request in *. simpl in Hdo.
  rewrite Hdo. simpl. now rewrite Hres.
Qed.

Lemma ShareToSlack_channel_continues blocks channelId st b r w' resp resBody rerr w'' :
  json_Marshal env (postMessage_of blocks channelId) = Ok b ->
  http_NewRequest_check env http_MethodPost chat_postMessage = None ->
  let req := postMessage_request (Cfg_SlackToken (hs_Cfg hs)) b in
  http_DefaultClient_Do env req (world st) = (r, w') ->
  Do_res r = Some resp ->
  io_ReadAll env (Response_Body resp) w' = ((resBody, rerr), w'') ->
  ShareToSlack_channel env hs blocks channelId st
  = (Returned None,
     {| world := w'';
        effects :=
          (effects st ++ [HttpDo req r]) ++
          [Log LvlInfo "successfully sent unfurl event payload"
             [("body", LogStr resBody)]] |}).
Proof.
  intros H Hc req Hdo Hres Hread. unfold ShareToSlack_channel, http_NewRequest.
  unfold postMessage_of in H. unfold chat_postMessage in Hc.
  rewrite H, Hc. unfold bind, http_Do, req_Header_Add, bind, call, emit. simpl.
  unfold req, postMessage_request in *. simpl in Hdo.
  rewrite Hdo. simpl. rewrite Hres. simpl. now rewrite Hread.
Qed.

Lemma ShareToSlack_channel_cases blocks channelId st :
  let run := ShareToSlack_channel env hs blocks channelId st in
  let token := Cfg_SlackToken (hs_Cfg hs) in
  (exists err,
      json_Marshal env (postMessage_of blocks channelId) = Err err
      /\ run = (Returned (Some (response_Error 400 "error parsing body" err)), st))
  \/ (exists b e,
         json_Marshal env (postMessage_of blocks channelId) = Ok b
         /\ http_NewRequest_check env http_MethodPost chat_postMessage = Some e
         /\ run = (Panicked NilDereference, st))
  \/ (exists b r w',
         json_Marshal env (postMessage_of blocks channelId) = Ok b
         /\ http_DefaultClient_Do env (postMessage_request token b) (world st) = (r, w')
         /\ Do_res r = None
         /\ run = (Panicked NilDereference,
                   {| world := w';
                      effects := effects st ++ [HttpDo (postMessage_request token b) r] |}))
  \/ (exists b r w' resBody w'',
         json_Marshal env (postMessage_of blocks channelId) = Ok b
         /\ http_DefaultClient_Do env (postMessage_request token b) (world st) = (r, w')
         /\ Do_res r <> None
         /\ run = (Returned None,
                   {| world := w'';
                      effects :=
                        (effects st ++ [HttpDo (postMessage_request token b) r]) ++
                        [Log LvlInfo "successfully sent unfurl event payload"
                           [("body", LogStr resBody)]] |})).
Proof.
  intros run token. subst run.
  destruct (json_Marshal env (postMessage_of blocks channelId)) as [b|err] eqn:Hm.
  2:{ left. exists err. split; [reflexivity|].
      now apply ShareToSlack_channel_marshal_fails. }
  right.
  destruct (http_NewRequest_check env http_MethodPost chat_postMessage) as [e|] eqn:Hc.
  { left. exists b, e. repeat split. now apply (ShareToSlack_channel_nil_request _ _ _ b e). }
  right.
  destruct (http_DefaultClient_Do env (postMessage_request token b) (world st))
    as [r w'] eqn:Hdo.
  destruct (Do_res r) as [resp|] eqn:Hres.
  - right.
    destruct (io_ReadAll env (Response_Body resp) w') as [[resBody rerr] w''] eqn:Hread.
    exists b, r, w', resBody, w''. split; [reflexivity|]. split; [exact Hdo|].
    split; [now rewrite Hres|].

    now apply (ShareToSlack_channel_continues _ _ _ b r w' resp resBody rerr w'').
  - left. exists b, r, w'. split; [reflexivity|]. split; [exact Hdo|].
    split; [exact Hres|].
    now apply ShareToSlack_channel_nil_response.
Qed.

Lemma ShareToSlack_loop_cons blocks channelId rest st :
  ShareToSlack_loop env hs blocks (channelId :: rest) st
  = match ShareToSlack_channel env hs blocks channelId st with
    | (Returned None, st1) => ShareToSlack_loop env hs blocks rest st1
    | (Returned (Some resp), st1) => (Returned (Some resp), st1)
    | (Panicked p, st1) => (Panicked p, st1)
    end.
Proof.
  simpl. unfold bind.
  destruct (ShareToSlack_channel env hs blocks channelId st) as [[[r|]|p] st1];
    reflexivity.
Qed.

Lemma ShareToSlack_loop_app blocks done rest st :
  ShareToSlack_loop env hs blocks (done ++ rest) st
  = match ShareToSlack_loop env hs blocks done st with
    | (Returned None, st1) => ShareToSlack_loop env hs blocks rest st1
    | other => other
    end.
Proof.
  revert st. induction done as [|ch done IH]; intros st; [reflexivity|].
  rewrite <- app_comm_cons, !ShareToSlack_loop_cons.
  destruct (ShareToSlack_channel env hs blocks ch st) as [[[r|]|p] st1];
    [reflexivity | apply IH | reflexivity].
Qed.

(** Once the dashboard is fetched and the body decoded, the handler's
    answer is decided by the channel loop. *)
Lemma ShareToSlack_enters_loop c st dashboard w1 shareRequest :
  DashboardService_GetDashboard hs (Req_Context c)
    {| GetDashboardQuery_UID := web_Params c ":uid" |} (world st)
  = (Ok dashboard, w1) ->
  web_Bind_ShareRequest env c = Ok shareRequest ->
  let blocks :=
    ShareToSlack_blocks (ShareToSlack_link env hs shareRequest)
      (Dashboard_Title env dashboard) shareRequest in
  ShareToSlack env hs c st
  = match ShareToSlack_loop env hs blocks (ShareRequest_ChannelIds shareRequest)
            {| world := w1; effects := effects st |} with
    | (Returned (Some resp), st') => (Returned resp, st')
    | (Returned None, st') => (Returned (response_JSON 200 JNil), st')
    | (Panicked p, st') => (Panicked p, st')
    end.
Proof.
  intros Hget Hbind blocks. unfold ShareToSlack, bind, call.
  rewrite Hget, Hbind. fold blocks.
  destruct (ShareToSlack_loop env hs blocks _ _) as [[[r|]|p] st']; reflexivity.
Qed.

(** With every request marshalled and constructed and every call answered,
    the loop posts once per channel, in order, and runs to its end. *)
Lemma ShareToSlack_loop_all_posted blocks channelIds st :
  forallb (fun ch => is_Ok (json_Marshal env (postMessage_of blocks ch))) channelIds = true ->
  http_NewRequest_check env http_MethodPost chat_postMessage = None ->
  (forall req w, Do_res (fst (http_DefaultClient_Do env req w)) <> None) ->
  exists st',
    ShareToSlack_loop env hs blocks channelIds st = (Returned None, st')
    /\ http_calls (effects st')
       = http_calls (effects st) ++
         map (fun ch => postMessage_request (Cfg_SlackToken (hs_Cfg hs))
                          (marshal_body env (postMessage_of blocks ch)))
             channelIds.
Proof.
  intros Hm Hc Hdo. revert st.
  induction channelIds as [|ch rest IH]; intros st.
  - exists st. split; [reflexivity|]. simpl. now rewrite app_nil_r.
  - simpl in Hm. apply andb_prop in Hm as [Hch Hrest].
    rewrite ShareToSlack_loop_cons.
    destruct (ShareToSlack_channel_cases blocks ch st)
      as [(err & Hmar & _) | [(b & e & _ & Hce & _) |
          [(b & r & w' & _ & Hd & Hres & _) |
           (b & r & w' & resBody & w'' & Hmar & Hd & Hres & ->)]]].
    + rewrite Hmar in Hch. discriminate.
    + congruence.
    + exfalso. apply (Hdo (postMessage_request (Cfg_SlackToken (hs_Cfg hs)) b) (world st)).
      now rewrite Hd.
    + destruct (IH Hrest
                  {| world := w'';
                     effects :=
                       (effects st ++
                        [HttpDo (postMessage_request (Cfg_SlackToken (hs_Cfg hs)) b) r]) ++
                       [Log LvlInfo "successfully sent unfurl event payload"
                          [("body", LogStr resBody)]] |})
        as (st' & Hloop & Hcalls).
      exists st'. split; [exact Hloop|].
      rewrite Hcalls. simpl. rewrite !http_calls_app. simpl.
      unfold marshal_body at 2. rewrite Hmar.
      now rewrite app_nil_r, <- app_assoc.
Qed.

(** A loop that is left by a return has had a response to every call. *)
Lemma ShareToSlack_loop_returned_all_responded blocks channelIds st out st' :
  ShareToSlack_loop env hs blocks channelIds st = (Returned out, st') ->
  all_responded (effects st) -> all_responded (effects st').
Proof.
  revert st. induction channelIds as [|ch rest IH]; intros st Hrun Hst.
  - now injection Hrun as _ <-.
  - rewrite ShareToSlack_loop_cons in Hrun.
    destruct (ShareToSlack_channel_cases blocks ch st)
      as [(err & _ & E) | [(b & e & _ & _ & E) |
          [(b & r & w' & _ & _ & _ & E) |
           (b & r & w' & resBody & w'' & _ & _ & Hres & E)]]];
      rewrite E in Hrun.
    + now injection Hrun as _ <-.
    + discriminate.
    + discriminate.
    + apply IH in Hrun; [exact Hrun|]. simpl.
      unfold all_responded. rewrite !Forall_app. repeat split; auto.
Qed.

(** When the dashboard fetch succeeds, the body decodes to a ShareRequest,
    every per-channel request marshals and is constructed and every HTTP
    call comes back with a response, the handler returns 200 after exactly
    one chat.postMessage call per channel identifier, in list order; every
    call carries the marshalled PostMessageRequest of its channel with one
    and the same four-block list (section with title and link, section with
    the message, image preview, actions). *)
Lemma ShareToSlack_one_post_per_channel c st dashboard w1 shareRequest :
  DashboardService_GetDashboard hs (Req_Context c)
    {| GetDashboardQuery_UID := web_Params c ":uid" |} (world st)
  = (Ok dashboard, w1) ->
  web_Bind_ShareRequest env c = Ok shareRequest ->
  let blocks :=
    ShareToSlack_blocks (ShareToSlack_link env hs shareRequest)
      (Dashboard_Title env dashboard) shareRequest in
  let channelIds := ShareRequest_ChannelIds shareRequest in
  forallb (fun ch => is_Ok (json_Marshal env (postMessage_of blocks ch))) channelIds = true ->
  http_NewRequest_check env http_MethodPost chat_postMessage = None ->
  (forall req w, Do_res (fst (http_DefaultClient_Do env req w)) <> None) ->
  let run := ShareToSlack env hs c st in
  fst run = Returned (response_JSON 200 JNil)
  /\ http_calls (effects (snd run))
     = http_calls (effects st) ++
       map (fun ch => postMessage_request (Cfg_SlackToken (hs_Cfg hs))
                        (marshal_body env (postMessage_of blocks ch)))
           channelIds
  /\ List.length (http_calls (effects (snd run)))
     = List.length (http_calls (effects st)) + List.length channelIds
  /\ map Block_Type blocks = ["section"; "section"; "image"; "actions"].
Proof.
  intros Hget Hbind blocks channelIds Hm Hc Hdo run.
  destruct (ShareToSlack_loop_all_posted blocks channelIds
              {| world := w1; effects := effects st |} Hm Hc Hdo)
    as (st' & Hloop & Hcalls).
  assert (E : run = (Returned (response_JSON 200 JNil), st')).
  { unfold run. rewrite (ShareToSlack_enters_loop c st dashboard w1 shareRequest Hget Hbind).
    fold blocks channelIds. now rewrite Hloop. }
  rewrite E. simpl. rewrite Hcalls. simpl.
  repeat split. now rewrite length_app, length_map.
Qed.

(** C10.  In the channel loop the error of the HTTP call is dropped and the
    body of the response is read whether or not there is a response: a nil
    response makes the iteration panic with a nil dereference right after
    the call, whatever error came with it, and a response lets the
    iteration finish.  Likewise a request that could not be constructed is
    dereferenced to add headers before its error is looked at, which
    panics before any call.  So the handler returns only from runs in
    which every HTTP call came back with a response. *)
Theorem ShareToSlack_reads_body_of_nil_response :
  (forall blocks channelId st b r w',
      json_Marshal env (postMessage_of blocks channelId) = Ok b ->
      http_NewRequest_check env http_MethodPost chat_postMessage = None ->
      let req := postMessage_request (Cfg_SlackToken (hs_Cfg hs)) b in
      http_DefaultClient_Do env req (world st) = (r, w') ->
      (Do_res r = None ->
       ShareToSlack_channel env hs blocks channelId st
       = (Panicked NilDereference,
          {| world := w'; effects := effects st ++ [HttpDo req r] |}))
      /\ (Do_res r <> None ->
          fst (ShareToSlack_channel env hs blocks channelId st) = Returned None))
  /\ (forall blocks channelId st b e,
         json_Marshal env (postMessage_of blocks channelId) = Ok b ->
         http_NewRequest_check env http_MethodPost chat_postMessage = Some e ->
         ShareToSlack_channel env hs blocks channelId st
         = (Panicked NilDereference, st))
  /\ (forall c st resp st',
         ShareToSlack env hs c st = (Returned resp, st') ->
         all_responded (effects st) -> all_responded (effects st')).
Proof.
  split; [|split].
  - intros blocks channelId st b r w' Hm Hc req Hdo. split.
    + intros Hres. now apply ShareToSlack_channel_nil_response.
    + intros Hres. destruct (Do_res r) as [resp|] eqn:E; [|done].
      destruct (io_ReadAll env (Response_Body resp) w') as [[resBody rerr] w''] eqn:Hread.
      now rewrite (ShareToSlack_channel_continues blocks channelId st b r w' resp
                     resBody rerr w'' Hm Hc Hdo E Hread).
  - intros blocks channelId st b e Hm Hc.
    now apply (ShareToSlack_channel_nil_request _ _ _ b e).
  - intros c st resp st' Hrun Hst.
    destruct (DashboardService_GetDashboard hs (Req_Context c)
                {| GetDashboardQuery_UID := web_Params c ":uid" |} (world st))
      as [[dashboard|err] w1] eqn:Hget.
    + destruct (web_Bind_ShareRequest env c) as [shareRequest|err] eqn:Hbind.
      * rewrite (ShareToSlack_enters_loop c st dashboard w1 shareRequest Hget Hbind)
          in Hrun.
        destruct (ShareToSlack_loop env hs _ _ _) as [[out|p] st''] eqn:Hloop.
        -- apply ShareToSlack_loop_returned_all_responded in Hloop; [|exact Hst].
           destruct out; now injection Hrun as _ <-.
        -- discriminate.
      * unfold ShareToSlack, bind, call in Hrun. rewrite Hget, Hbind in Hrun.
        now injection Hrun as _ <-.
    + rewrite (ShareToSlack_fetch_error_run c st err w1 Hget) in Hrun. injection Hrun as _ <-. simpl.
      unfold all_responded. rewrite Forall_app. split; [exact Hst|].
      repeat constructor.
Qed.

(** *** Unfurl orchestrator *)

(** Case analysis on the next answer of the outside world. *)
Ltac break_oracle :=
  match goal with
  | |- context [json_Marshal ?e ?v] =>
      destruct (json_Marshal e v) as [?|?] eqn:?
  | |- context [http_NewRequest_check ?e ?m ?u] =>
      destruct (http_NewRequest_check e m u) as [?|] eqn:?
  | |- context [DashboardService_GetDashboard ?h ?c ?q ?w] =>
      destruct (DashboardService_GetDashboard h c q w) as [[?|?] ?] eqn:?
  | |- context [RenderService_Render ?h ?c ?o ?w] =>
      destruct (RenderService_Render h c o w) as [[?|?] ?] eqn:?
  | |- context [http_DefaultClient_Do ?e ?r ?w] =>
      destruct (http_DefaultClient_Do e r w) as [? ?] eqn:?
  | |- context [io_ReadAll ?e ?b ?w] =>
      destruct (io_ReadAll e b w) as [[? [?|]] ?] eqn:?
  | |- context [Body_Close ?e ?b ?w] =>
      destruct (Body_Close e b w) as [[?|] ?] eqn:?
  | |- context [match Do_err ?r with _ => _ end] => destruct (Do_err r) as [?|] eqn:?
  | |- context [match Do_res ?r with _ => _ end] => destruct (Do_res r) as [?|] eqn:?
  end; simpl.

Ltac unfold_run :=
  unfold http_NewRequest, http_Do, req_Header_Add, res_Body, hs_log_Info,
    hs_log_Error, renderDashboard;
  unfold bind, defer, deref, index, call, emit, ret, panic.

(** The only panic [sendUnfurlEvent] can raise is a nil dereference. *)
Lemma sendUnfurlEvent_outcome ctx ev imagePath title st :
  (exists err, fst (sendUnfurlEvent env hs ctx ev imagePath title st) = Returned err)
  \/ fst (sendUnfurlEvent env hs ctx ev imagePath title st) = Panicked NilDereference.
Proof.
  unfold sendUnfurlEvent. unfold_run. simpl.
  repeat break_oracle; eauto.
Qed.

(** The HTTP calls of [sendUnfurlEvent]: one chat.unfurl request with the
    marshalled payload when it marshals and the request is constructed,
    none otherwise. *)
Lemma sendUnfurlEvent_calls ctx ev imagePath title st :
  http_calls (effects (snd (sendUnfurlEvent env hs ctx ev imagePath title st)))
  = http_calls (effects st) ++
    match json_Marshal env
            (JUnfurlEventPayload (sendUnfurlEvent_payload env hs ev imagePath title)),
          http_NewRequest_check env http_MethodPost chat_unfurl with
    | Ok b, None => [unfurl_request (Cfg_SlackToken (hs_Cfg hs)) b]
    | _, _ => []
    end.
Proof.
  unfold sendUnfurlEvent, chat_unfurl, unfurl_request. unfold_run. simpl.
  repeat break_oracle;
    rewrite ?http_calls_app; simpl; rewrite ?app_nil_r; try reflexivity.
Qed.

(** With a constructible request and a client that never returns a nil
    response without an error, [sendUnfurlEvent] returns. *)
Lemma sendUnfurlEvent_returns ctx ev imagePath title st :
  http_NewRequest_check env http_MethodPost chat_unfurl = None ->
  (forall req w, Do_err (fst (http_DefaultClient_Do env req w)) = None ->
                 Do_res (fst (http_DefaultClient_Do env req w)) <> None) ->
  exists err, fst (sendUnfurlEvent env hs ctx ev imagePath title st) = Returned err.
Proof.
  intros Hc Hdo. unfold sendUnfurlEvent. unfold chat_unfurl in Hc. unfold_run. simpl.
  destruct (json_Marshal env _) as [b|err]; simpl; [|eauto].
  rewrite Hc. simpl.
  match goal with
  | |- context [http_DefaultClient_Do env ?r ?w] =>
      specialize (Hdo r w); destruct (http_DefaultClient_Do env r w) as [r' w']
  end.
  simpl in *. destruct (Do_err r') as [e|]; simpl; [eauto|].
  destruct (Do_res r') as [resp|]; simpl; [|now destruct Hdo].
  repeat break_oracle; eauto.
Qed.

Lemma handleLinkSharedEvent_no_links ev st :
  Event_Links (EventPayload_Event ev) = [] ->
  handleLinkSharedEvent env hs ev st = (Panicked IndexOutOfRange, st).
Proof. intros H. unfold handleLinkSharedEvent. now rewrite H. Qed.

(** What the unfurl path does once the first link is read. *)
Lemma handleLinkSharedEvent_first_link ev link rest st :
  Event_Links (EventPayload_Event ev) = link :: rest ->
  handleLinkSharedEvent env hs ev st
  = (let '(renderPath, dashboardUID) := extractURLInfo (Link_URL link) in
     if String.eqb renderPath "" then
       hs_log_Error "fail to extract render path from link" []
     else
       bind (call (DashboardService_GetDashboard hs context_Background
                     {| GetDashboardQuery_UID := dashboardUID |}))
         (fun r =>
            match r with
            | Err err =>
                hs_log_Error "fail to get dashboard"
                  [("err", LogErr err); ("dashboard UID", LogStr dashboardUID)]
            | Ok dashboard =>
                bind (renderDashboard env hs context_Background renderPath)
                  (fun r =>
                     match r with
                     | Err err =>
                         hs_log_Error "fail to render dashboard for Slack preview"
                           [("err", LogErr err)]
                     | Ok imagePath =>
                         bind (sendUnfurlEvent env hs context_Background ev imagePath
                                 (Dashboard_Title env dashboard))
                           (fun err =>
                              match err with
                              | Some err =>
                                  hs_log_Error "fail to send unfurl event to Slack"
                                    [("err", LogErr err)]
                              | None => ret tt
                              end)
                     end)
            end)) st.
Proof. intros H. unfold handleLinkSharedEvent. now rewrite H. Qed.

(** With a first link, the unfurl path returns or hits a nil pointer. *)
Lemma handleLinkSharedEvent_outcome ev link rest st :
  Event_Links (EventPayload_Event ev) = link :: rest ->
  fst (handleLinkSharedEvent env hs ev st) = Returned tt
  \/ fst (handleLinkSharedEvent env hs ev st) = Panicked NilDereference.
Proof.
  intros H. rewrite (handleLinkSharedEvent_first_link ev link rest st H).
  destruct (extractURLInfo (Link_URL link)) as [renderPath dashboardUID].
  destruct (String.eqb renderPath ""); [now left|].
  unfold renderDashboard, hs_log_Error, bind, call, emit, ret. simpl.
  repeat break_oracle; auto.
  match goal with
  | |- context [sendUnfurlEvent env hs ?c ev ?i ?t ?s] =>
      destruct (sendUnfurlEvent_outcome c ev i t s) as [[err E]|E];
      destruct (sendUnfurlEvent env hs c ev i t s) as [[o|p] st']
  end; simpl in *; simplify_eq; auto.
  destruct err; auto.
Qed.

(** The parts of the unfurl path that give up early: an empty render
    path, a failed dashboard fetch and a failed rendering are logged, the
    path returns, and no HTTP call is made. *)
Lemma handleLinkSharedEvent_aborts ev link rest st :
  Event_Links (EventPayload_Event ev) = link :: rest ->
  let renderPath := fst (extractURLInfo (Link_URL link)) in
  let dashboardUID := snd (extractURLInfo (Link_URL link)) in
  let fetch :=
    DashboardService_GetDashboard hs context_Background
      {| GetDashboardQuery_UID := dashboardUID |} (world st) in
  let run := handleLinkSharedEvent env hs ev st in
  (renderPath = ""
   \/ (exists err, fst fetch = Err err)
   \/ (exists dashboard err,
          fst fetch = Ok dashboard
          /\ fst (renderDashboard env hs context_Background renderPath
                    {| world := snd fetch; effects := effects st |})
             = Returned (Err err))) ->
  fst run = Returned tt
  /\ http_calls (effects (snd run)) = http_calls (effects st).
Proof.
  intros H renderPath dashboardUID fetch run Hcase. subst run.
  enough (exists s', handleLinkSharedEvent env hs ev st = (Returned tt, s')
                     /\ http_calls (effects s') = http_calls (effects st))
    as (s' & -> & Hs) by auto.
  rewrite (handleLinkSharedEvent_first_link ev link rest st H).
  subst renderPath dashboardUID fetch.
  destruct (extractURLInfo (Link_URL link)) as [renderPath dashboardUID].
  simpl in Hcase.
  assert (Hlog : forall msg ctx (s : State World ReadCloser),
             http_calls (effects s) = http_calls (effects st) ->
             exists s', hs_log_Error msg ctx s = (Returned tt, s')
                        /\ http_calls (effects s') = http_calls (effects st)).
  { intros msg ctx s Hs. eexists. split; [reflexivity|]. simpl.
    rewrite http_calls_app, Hs. simpl. now rewrite app_nil_r. }
  destruct (String.eqb_spec renderPath "") as [->|Hne]; [now apply Hlog|].
  destruct Hcase as [Hrp | [(err & Hf) | (dashboard & err & Hf & Hr)]]; [done| |].
  - unfold bind at 1. unfold call at 1.
    destruct (DashboardService_GetDashboard hs _ _ _) as [r w1].
    simpl in Hf. subst r. now apply Hlog.
  - unfold bind at 1. unfold call at 1.
    destruct (DashboardService_GetDashboard hs _ _ _) as [r w1].
    simpl in Hf, Hr. subst r. unfold bind at 1.
    destruct (renderDashboard env hs context_Background renderPath _) as [o s1] eqn:E.
    simpl in Hr. subst o.
    apply Hlog. unfold renderDashboard, bind, call in E. simpl in E.
    destruct (RenderService_Render hs _ _ _) as [[?|?] ?]; simpl in E;
      now injection E as _ <-.
Qed.

(** Apart from the two panics, every failure on the unfurl path is
    swallowed: with a first link, a constructible request and a client
    that never returns a nil response without an error, the path returns. *)
Lemma handleLinkSharedEvent_swallows ev link rest st :
  Event_Links (EventPayload_Event ev) = link :: rest ->
  http_NewRequest_check env http_MethodPost chat_unfurl = None ->
  (forall req w, Do_err (fst (http_DefaultClient_Do env req w)) = None ->
                 Do_res (fst (http_DefaultClient_Do env req w)) <> None) ->
  fst (handleLinkSharedEvent env hs ev st) = Returned tt.
Proof.
  intros H Hc Hdo. rewrite (handleLinkSharedEvent_first_link ev link rest st H).
  destruct (extractURLInfo (Link_URL link)) as [renderPath dashboardUID].
  destruct (String.eqb renderPath ""); [reflexivity|].
  unfold renderDashboard, hs_log_Error, bind, call, emit, ret. simpl.
  repeat break_oracle; auto.
  match goal with
  | |- context [sendUnfurlEvent env hs ?c ev ?i ?t ?s] =>
      destruct (sendUnfurlEvent_returns c ev i t s Hc Hdo) as [err E];
      destruct (sendUnfurlEvent env hs c ev i t s) as [[o|p] st']
  end; simpl in *; simplify_eq.
  now destruct err.
Qed.

(** With a first link, a constructible request and a client that never
    returns a nil response without an error, a qualifying event is
    answered with the empty 200 whatever the unfurl path ran into. *)
Lemma AcknowledgeSlackEvent_link_shared c ev link rest st :
  web_Bind_EventPayload env c = Ok ev -> qualifying ev ->
  Event_Links (EventPayload_Event ev) = link :: rest ->
  http_NewRequest_check env http_MethodPost chat_unfurl = None ->
  (forall req w, Do_err (fst (http_DefaultClient_Do env req w)) = None ->
                 Do_res (fst (http_DefaultClient_Do env req w)) <> None) ->
  fst (AcknowledgeSlackEvent env hs c st) = Returned (response_Empty 200).
Proof.
  intros Hbind Hq Hl Hc Hdo.
  rewrite (AcknowledgeSlackEvent_qualifying c ev st Hbind Hq).
  pose proof (handleLinkSharedEvent_swallows ev link rest st Hl Hc Hdo) as H.
  destruct (handleLinkSharedEvent env hs ev st) as [[[]|p] st']; simpl in *;
    [reflexivity | discriminate].
Qed.

(** C9.  For a qualifying event the unfurl path reads the first element of
    the links list without a check: with an empty list the read is out of
    range, the path panics before doing anything else and so does the
    dispatcher; with a non-empty list no index panic occurs. *)
Theorem handleLinkSharedEvent_indexes_first_link c ev st :
  web_Bind_EventPayload env c = Ok ev -> qualifying ev ->
  (Event_Links (EventPayload_Event ev) = [] ->
   handleLinkSharedEvent env hs ev st = (Panicked IndexOutOfRange, st)
   /\ AcknowledgeSlackEvent env hs c st = (Panicked IndexOutOfRange, st))
  /\ (Event_Links (EventPayload_Event ev) <> [] ->
      fst (handleLinkSharedEvent env hs ev st) <> Panicked IndexOutOfRange
      /\ fst (AcknowledgeSlackEvent env hs c st) <> Panicked IndexOutOfRange).
Proof.
  intros Hbind Hq. rewrite (AcknowledgeSlackEvent_qualifying c ev st Hbind Hq). split.
  - intros H. rewrite (handleLinkSharedEvent_no_links ev st H). now split.
  - intros H. destruct (Event_Links (EventPayload_Event ev)) as [|link rest] eqn:E; [done|].
    destruct (handleLinkSharedEvent_outcome ev link rest st E) as [Hr|Hr];
      destruct (handleLinkSharedEvent env hs ev st) as [[[]|p] st']; simpl in *;
      simplify_eq; split; discriminate.
Qed.

(** *** The unfurl payload *)

Section Unfurls.

Variables (dashboardTitle imageURL : string).

Local Abbreviation unfurl_of := (sendUnfurlEvent_unfurl dashboardTitle imageURL).
Local Abbreviation store := (sendUnfurlEvent_store dashboardTitle imageURL).

(** The layout only looks at the URL of its link. *)
Lemma unfurl_of_URL l1 l2 : Link_URL l1 = Link_URL l2 -> unfurl_of l1 = unfurl_of l2.
Proof.
  intros E. unfold sendUnfurlEvent_unfurl, sendUnfurlEvent_blocks. now rewrite E.
Qed.

Lemma store_keeps (links : list Link) (unfurls : Unfurls) link :
  unfurls !! Link_URL link = Some (unfurl_of link) ->
  foldl store unfurls links !! Link_URL link = Some (unfurl_of link).
Proof.
  revert unfurls. induction links as [|l links IH]; intros unfurls Hm; [exact Hm|].
  simpl. apply IH. unfold sendUnfurlEvent_store.
  destruct (decide (Link_URL l = Link_URL link)) as [E|Hne].
  - rewrite E, lookup_insert_eq. f_equal. now apply unfurl_of_URL.
  - now rewrite lookup_insert_ne.
Qed.

Lemma store_lookup (links : list Link) (unfurls : Unfurls) link :
  link ∈ links ->
  foldl store unfurls links !! Link_URL link = Some (unfurl_of link).
Proof.
  revert unfurls. induction links as [|l links IH]; intros unfurls Hin.
  - now apply elem_of_nil in Hin.
  - apply elem_of_cons in Hin as [->|Hin]; simpl.
    + apply store_keeps. unfold sendUnfurlEvent_store. apply lookup_insert_eq.
    + now apply IH.
Qed.

Lemma store_dom (links : list Link) (unfurls : Unfurls) :
  dom (foldl store unfurls links)
  = dom unfurls ∪ (list_to_set (Link_URL <$> links) : gset string).
Proof.
  revert unfurls. induction links as [|l links IH]; intros unfurls; simpl.
  - now rewrite (right_id_L ∅ (∪)).
  - rewrite IH. unfold sendUnfurlEvent_store. rewrite dom_insert_L.
    now rewrite (comm_L (∪) {[Link_URL l]}), (assoc_L (∪)).
Qed.

End Unfurls.

(** C7.  The payload [sendUnfurlEvent] marshals and posts holds, for every
    link of the inbound event, an entry under that link's URL, and holds
    entries under no other key; each entry is exactly four blocks in order:
    a header with the dashboard title, a text section, an image block with
    the preview URL, and an actions block whose single button has the
    link's URL.  The one HTTP call [sendUnfurlEvent] makes, if any, is the
    chat.unfurl request whose body is this payload, marshalled. *)
Theorem sendUnfurlEvent_one_unfurl_per_link ctx linkEvent imagePath dashboardTitle :
  let payload := sendUnfurlEvent_payload env hs linkEvent imagePath dashboardTitle in
  let imageURL := getImageURL env hs (filepath_Base env imagePath) in
  let links := Event_Links (EventPayload_Event linkEvent) in
  (forall link, link ∈ links ->
     exists header text image actions button,
       UnfurlEventPayload_Unfurls payload !! Link_URL link
       = Some {| Unfurl_Blocks := [header; text; image; actions] |}
       /\ Block_Type header = "header"
       /\ Block_Text header
          = Some {| Text_Type := "plain_text"; Text_Text := dashboardTitle |}
       /\ Block_Type text = "section"
       /\ Block_Text text
          = Some {| Text_Type := "plain_text";
                    Text_Text := "Here is the dashboard that I wanted to show you" |}
       /\ Block_Type image = "image"
       /\ Block_ImageURL image = imageURL
       /\ Block_Type actions = "actions"
       /\ Block_Elements actions = [button]
       /\ Element_Type button = "button"
       /\ Element_URL button = Link_URL link)
  /\ dom (UnfurlEventPayload_Unfurls payload)
     = (list_to_set (Link_URL <$> links) : gset string)
  /\ (forall st,
        http_calls
          (effects (snd (sendUnfurlEvent env hs ctx linkEvent imagePath dashboardTitle st)))
        = http_calls (effects st) ++
          match json_Marshal env (JUnfurlEventPayload payload),
                http_NewRequest_check env http_MethodPost chat_unfurl with
          | Ok b, None => [unfurl_request (Cfg_SlackToken (hs_Cfg hs)) b]
          | _, _ => []
          end).
Proof.
  intros payload imageURL links. split; [|split].
  - intros link Hin. do 5 eexists. split.
    + unfold payload, sendUnfurlEvent_payload. simpl.
      apply (store_lookup dashboardTitle imageURL links ∅ link Hin).
    + simpl. repeat split.
  - unfold payload, sendUnfurlEvent_payload. simpl.
    rewrite (store_dom dashboardTitle imageURL links ∅), dom_empty_L.
    now rewrite (left_id_L ∅ (∪)).
  - intros st. apply sendUnfurlEvent_calls.
Qed.

End HandlerFacts.

(** ** The handlers on the sample deployment *)

Module OnSample.
Import Sample.

Lemma AcknowledgeSlackEvent_url_verification_witness :
  AcknowledgeSlackEvent (env None no_body (Ok verification)) hs (request "") st0
  = (Returned
       (response_JSON 200
          (JEventChallengeAck {| EventChallengeAck_Challenge := "abc123" |})),
     st0).
Proof.
  apply (AcknowledgeSlackEvent_url_verification _ _ _ _
           (env None no_body (Ok verification)) hs (request "") verification st0);
    reflexivity.
Defined.

Lemma ShareToSlack_dashboard_fetch_fails_witness :
  fst share_missing
  = Returned (response_Error 400 "error parsing body" (errorString "Dashboard not found"))
  /\ http_calls (effects (snd share_missing)) = [].
Proof.
  destruct (ShareToSlack_dashboard_fetch_fails _ _ _ _
              (env None (Ok share3) no_body) hs (request "missing") st0
              (errorString "Dashboard not found") 0 eq_refl) as [E1 E2].
  split; [unfold share_missing; now rewrite E1 | exact E2].
Defined.

Lemma ShareToSlack_one_post_per_channel_witness :
  fst share_ok = Returned (response_JSON 200 JNil)
  /\ map Request_Body (http_calls (effects (snd share_ok)))
     = ["postMessage to C1"; "postMessage to C2"; "postMessage to C3"].
Proof.
  destruct (ShareToSlack_one_post_per_channel _ _ _ _
              (env None (Ok share3) no_body) hs (request "abc") st0
              "Dashboard abc" 0 share3 eq_refl eq_refl)
    as (E1 & E2 & _).
  - vm_compute. reflexivity.
  - reflexivity.
  - intros req w. simpl. discriminate.
  - split; [exact E1|]. unfold share_ok. rewrite E2. vm_compute. reflexivity.
Defined.

Lemma ShareToSlack_reads_body_of_nil_response_witness :
  ShareToSlack_channel (env (Some 0) (Ok share3) no_body) hs blocks3 "C1" st0
  = (Panicked NilDereference,
     {| world := 1;
        effects :=
          [HttpDo (postMessage_request "xoxb-1" "postMessage to C1")
             {| Do_res := None;
                Do_err := Some (errorString "dial tcp: connection refused") |}] |})
  /\ fst (ShareToSlack_channel (env None (Ok share3) no_body) hs blocks3 "C1" st0)
     = Returned None
  /\ ShareToSlack_channel (env_refusing (Ok share3) no_body) hs blocks3 "C1" st0
     = (Panicked NilDereference, st0)
  /\ all_responded (effects (snd share_ok)).
Proof.
  split; [|split; [|split]].
  - apply (proj1 (proj1 (ShareToSlack_reads_body_of_nil_response _ _ _ _
                           (env (Some 0) (Ok share3) no_body) hs)
                    blocks3 "C1" st0 "postMessage to C1"
                    {| Do_res := None;
                       Do_err := Some (errorString "dial tcp: connection refused") |}
                    1 eq_refl eq_refl eq_refl));
      reflexivity.
  - apply (proj2 (proj1 (ShareToSlack_reads_body_of_nil_response _ _ _ _
                           (env None (Ok share3) no_body) hs)
                    blocks3 "C1" st0 "postMessage to C1"
                    {| Do_res := Some {| Response_Body := "ok" |}; Do_err := None |}
                    1 eq_refl eq_refl eq_refl));
      discriminate.
  - apply (proj1 (proj2 (ShareToSlack_reads_body_of_nil_response _ _ _ _
                           (env_refusing (Ok share3) no_body) hs))
             blocks3 "C1" st0 "postMessage to C1"
             (errorString "net/http: invalid method"));
      reflexivity.
  - apply (proj2 (proj2 (ShareToSlack_reads_body_of_nil_response _ _ _ _
                           (env None (Ok share3) no_body) hs))
             (request "abc") st0 (response_JSON 200 JNil) (snd share_ok)).
    + vm_compute. reflexivity.
    + constructor.
Defined.

Lemma handleLinkSharedEvent_indexes_first_link_witness :
  AcknowledgeSlackEvent (env None no_body (Ok no_links)) hs (request "") st0
  = (Panicked IndexOutOfRange, st0)
  /\ fst (AcknowledgeSlackEvent (env None no_body (Ok two_links)) hs (request "") st0)
     <> Panicked IndexOutOfRange.
Proof.
  split.
  - apply (proj1 (handleLinkSharedEvent_indexes_first_link _ _ _ _
                    (env None no_body (Ok no_links)) hs (request "") no_links st0
                    eq_refl (conj eq_refl (conj eq_refl eq_refl)))).
    reflexivity.
  - apply (proj2 (handleLinkSharedEvent_indexes_first_link _ _ _ _
                    (env None no_body (Ok two_links)) hs (request "") two_links st0
                    eq_refl (conj eq_refl (conj eq_refl eq_refl)))).
    discriminate.
Defined.

Lemma sendUnfurlEvent_one_unfurl_per_link_witness :
  exists u,
    UnfurlEventPayload_Unfurls
      (sendUnfurlEvent_payload (env None no_body (Ok two_links)) hs two_links
         "/var/lib/grafana/png/shot.png" "Dashboard abc")
    !! "https://grafana.example/d/zzz/mem" = Some u
    /\ map Block_Type (Unfurl_Blocks u) = ["header"; "section"; "image"; "actions"].
Proof.
  destruct (proj1 (sendUnfurlEvent_one_unfurl_per_link _ _ _ _
                     (env None no_body (Ok two_links)) hs context_Background
                     two_links "/var/lib/grafana/png/shot.png" "Dashboard abc")
              (link "https://grafana.example/d/zzz/mem"))
    as (header & text & image & actions & button & Hl & H1 & _ & H2 & _ & H3 & _ & H4 & _).
  - simpl. apply list_elem_of_In. simpl. right. left. reflexivity.
  - eexists. split; [exact Hl|]. simpl. now rewrite H1, H2, H3, H4.
Defined.

(** C3 at its failing input: a share request for three channels, the
    dashboard fetched, and the second chat.postMessage call left without a
    response.  The error of that call is dropped and the body of the
    missing response is read: the handler panics with a nil dereference
    after two attempted calls, so the third channel is never attempted and
    no response is returned. *)
Theorem ShareToSlack_unanswered_call_panics :
  ShareRequest_ChannelIds share3 = ["C1"; "C2"; "C3"]
  /\ fst share_down = Panicked NilDereference
  /\ effects (snd share_down)
     = [HttpDo (postMessage_request "xoxb-1" "postMessage to C1")
          {| Do_res := Some {| Response_Body := "ok" |}; Do_err := None |};
        Log LvlInfo "successfully sent unfurl event payload" [("body", LogStr "ok")];
        HttpDo (postMessage_request "xoxb-1" "postMessage to C2")
          {| Do_res := None;
             Do_err := Some (errorString "dial tcp: connection refused") |}]
  /\ List.length (http_calls (effects (snd share_down))) = 2.
Proof. vm_compute. repeat split. Qed.

(** C4 at its failing input: a qualifying event without links.  The
    deferred unfurl path panics on the first link, and the panic, not the
    empty 200 response, is what leaves the dispatcher. *)
Theorem AcknowledgeSlackEvent_no_links_panics :
  qualifying no_links
  /\ fst (AcknowledgeSlackEvent (env None no_body (Ok no_links)) hs (request "") st0)
     = Panicked IndexOutOfRange
  /\ fst (AcknowledgeSlackEvent (env None no_body (Ok no_links)) hs (request "") st0)
     <> Returned (response_Empty 200).
Proof. repeat split. discriminate. Qed.

(** C6 at its failing input: on a qualifying event without links the
    unfurl path fails on reading the first link; the failure is neither
    logged nor swallowed, it leaves the path as a panic. *)
Theorem handleLinkSharedEvent_no_links_panics :
  qualifying no_links
  /\ handleLinkSharedEvent (env None no_body (Ok no_links)) hs no_links st0
     = (Panicked IndexOutOfRange, st0)
  /\ effects st0 = [].
Proof. repeat split. Qed.

End OnSample.

(* ================================================================== *)
(** * Further properties of the handler file *)
(* ================================================================== *)

(** ** [extractURLInfo] on arbitrary input *)

Module ExtractAll.
Import Regexp StrFacts RegexpFacts ExtractFacts.

Lemma all_in_no_LF s : all_in AnyCharNotNL s = true -> no_LF s = true.
Proof.
  unfold no_LF. induction s as [|c s IH]; simpl; [reflexivity|].
  destruct (Ascii.eqb c LF); simpl; [discriminate | exact IH].
Qed.

Lemma all_in_no_slash s : all_in (NotLiteral "/") s = true -> no_slash s = true.
Proof.
  unfold no_slash. induction s as [|c s IH]; simpl; [reflexivity|].
  destruct (Ascii.eqb c "/"); simpl; [discriminate | exact IH].
Qed.

(** Every string splits into its first line and what follows it. *)
Lemma split_line t :
  exists a b, t = a +:+ b /\ no_LF a = true /\ stops AnyCharNotNL b = true.
Proof.
  induction t as [|c t (a & b & -> & Ha & Hb)].
  - now exists "", "".
  - destruct (Ascii.eqb c LF) eqn:E.
    + exists "", (String c (a +:+ b)). simpl. now rewrite E.
    + exists (String c a), b. unfold no_LF in *. simpl. now rewrite E.
Qed.

(** With a continuation that accepts everything, the star takes the whole
    first line. *)
Lemma star_greedy_any_accept pos s caps r :
  star_greedy AnyCharNotNL pos s (fun pos' s' => accept pos' s' caps) = Some r ->
  exists a b, s = a +:+ b /\ no_LF a = true /\ stops AnyCharNotNL b = true
              /\ r = (pos + String.length a, caps).
Proof.
  intros H. destruct (split_line s) as (a & b & -> & Ha & Hb).
  exists a, b. repeat split; auto.
  rewrite (star_greedy_longest AnyCharNotNL a b pos _
             (pos + String.length a, caps)) in H; auto using no_LF_all_in.
  now injection H as <-.
Qed.

(** What a match of group 1 looks like. *)
Lemma run_group1_inv pos s caps r :
  run re_group1 pos s caps accept = Some r ->
  exists uid slug rest,
    s = "/d/" +:+ uid +:+ "/" +:+ slug +:+ rest
    /\ no_slash uid = true /\ no_LF slug = true /\ stops AnyCharNotNL rest = true
    /\ r = (pos + 3 + String.length uid + 1 + String.length slug,
            (1, (pos, pos + 3 + String.length uid + 1 + String.length slug))
              :: (2, (pos + 3, pos + 3 + String.length uid)) :: caps).
Proof.
  intros E. unfold re_group1 in E. simpl in E.
  destruct s as [|c1 s]; [discriminate|].
  destruct (Ascii.eqb c1 "/") eqn:E1; [|discriminate].
  destruct s as [|c2 s]; [discriminate|].
  destruct (Ascii.eqb c2 "d") eqn:E2; [|discriminate].
  destruct s as [|c3 s]; [discriminate|].
  destruct (Ascii.eqb c3 "/") eqn:E3; [|discriminate].
  apply Ascii.eqb_eq in E1 as ->, E2 as ->, E3 as ->.
  apply star_greedy_some_inv in E as (uid & b & -> & Hu & E).
  destruct b as [|c b]; [discriminate|].
  destruct (Ascii.eqb c "/") eqn:E4; [|discriminate].
  apply Ascii.eqb_eq in E4 as ->.
  destruct (split_line b) as (slug & rest & -> & Hs & Hr).
  exists uid, slug, rest. repeat split; auto using all_in_no_slash.
  erewrite star_greedy_longest in E;
    [| now apply no_LF_all_in | exact Hr | reflexivity].
  unfold accept in E. injection E as <-. repeat f_equal; lia.
Qed.

(** What a successful search looks like: the match starts after some
    skipped text, runs over a line-feed-free stretch to a segment, and
    ends at the end of that segment's line. *)
Lemma find_from_inv s pos b e cs :
  find_from re pos s = Some (b, e, cs) ->
  exists skipped line uid slug rest,
    s = skipped +:+ line +:+ "/d/" +:+ uid +:+ "/" +:+ slug +:+ rest
    /\ no_slash uid = true /\ no_LF slug = true /\ stops AnyCharNotNL rest = true
    /\ b = pos + String.length skipped
    /\ let q := b + String.length line in
       e = q + 3 + String.length uid + 1 + String.length slug
       /\ cs = [(1, (q, e)); (2, (q + 3, q + 3 + String.length uid))].
Proof.
  revert pos. induction s as [|c s IH]; intros pos H; rewrite find_from_eq in H.
  - rewrite run_re_eq in H. simpl in H.
    destruct (run re_group1 pos "" [] accept) as [[e' cs']|] eqn:E; [|discriminate].
    apply run_group1_inv in E as (uid & slug & rest & E & _). discriminate.
  - destruct (run re pos (String c s) [] accept) as [[e' cs']|] eqn:E.
    + injection H as <- <- <-. rewrite run_re_eq in E.
      apply star_greedy_some_inv in E as (line & t & Hs & _ & E).
      apply run_group1_inv in E as (uid & slug & rest & -> & Hu & Hsl & Hr & E).
      injection E as -> ->.
      exists "", line, uid, slug, rest. simpl.
      repeat split; auto; lia.
    + apply IH in H as (skipped & line & uid & slug & rest & -> & Hu & Hsl & Hr & -> & He).
      exists (String c skipped), line, uid, slug, rest. simpl in *.
      repeat split; auto; try lia.
      now destruct He.
Qed.




(** The result of [extractURLInfo], for every input. *)
Lemma extractURLInfo_cases url :
  (find_from re 0 url = None /\ extractURLInfo url = ("", ""))
  \/ exists pre uid slug rest,
       url = pre +:+ "/d/" +:+ uid +:+ "/" +:+ slug +:+ rest
       /\ no_slash uid = true /\ no_LF slug = true
       /\ stops AnyCharNotNL rest = true
       /\ extractURLInfo url = ("/d/" +:+ uid +:+ "/" +:+ slug, uid).
Proof.
  unfold extractURLInfo, FindStringSubmatch.
  destruct (find_from re 0 url) as [[[b e] cs]|] eqn:E; [right | now left].
  apply find_from_inv in E
    as (skipped & line & uid & slug & rest & -> & Hu & Hsl & Hr & -> & -> & ->).
  exists (skipped +:+ line), uid, slug, rest.
  rewrite !append_assoc. repeat split; auto.
  cbn [NumSubexp re re_group1 Nat.max seq map List.length Nat.eqb negb nth
       cap_lookup slice].
  f_equal.
  - replace (0 + String.length skipped + String.length line + 3 + String.length uid
             + 1 + String.length slug
             - (0 + String.length skipped + String.length line))
      with (String.length ("/d/" +:+ uid +:+ "/" +:+ slug))
      by (simpl; rewrite length_append; simpl; lia).
    replace (0 + String.length skipped + String.length line)
      with (String.length (skipped +:+ line)) by (rewrite length_append; lia).
    pose proof (substring_middle (skipped +:+ line)
                  ("/d/" +:+ uid +:+ "/" +:+ slug) rest) as H.
    rewrite !append_assoc in H. exact H.
  - replace (0 + String.length skipped + String.length line + 3 + String.length uid
             - (0 + String.length skipped + String.length line + 3))
      with (String.length uid) by lia.
    replace (0 + String.length skipped + String.length line + 3)
      with (String.length (skipped +:+ line +:+ "/d/"))
      by (rewrite !length_append; simpl; lia).
    pose proof (substring_middle (skipped +:+ line +:+ "/d/") uid
                  ("/" +:+ slug +:+ rest)) as H.
    rewrite !append_assoc in H. exact H.
Qed.

End ExtractAll.

Module ExtractURLInfoAll.
Import Regexp StrFacts RegexpFacts ExtractFacts ExtractAll.

(** X1.  For every URL string, [extractURLInfo] returns either two empty
    strings or a dashboard segment that really occurs in the string: a
    render path of the form /d/<uid>/<slug>, with the slash-free <uid> as
    the identifier and a <slug> that runs to the end of its line (the end
    of the string or the next line feed). *)
Theorem extractURLInfo_returns_a_segment (url : string) :
  extractURLInfo url = ("", "")
  \/ exists pre uid slug rest,
       url = pre +:+ "/d/" +:+ uid +:+ "/" +:+ slug +:+ rest
       /\ no_slash uid = true /\ no_LF slug = true
       /\ stops AnyCharNotNL rest = true
       /\ extractURLInfo url = ("/d/" +:+ uid +:+ "/" +:+ slug, uid).
Proof.
  destruct (extractURLInfo_cases url) as [[_ E]|H]; [now left | now right].
Qed.



End ExtractURLInfoAll.

(** ** More on the handlers *)

Section MoreFacts.

Variables (World ReadCloser Authorization Dashboard : Type).
Variables (SlackChannels Channels : Type).
Variable env : Env World ReadCloser Authorization Dashboard.
Variable env2 : Env2 SlackChannels Channels.
Variable hs : HTTPServer World Dashboard.

Implicit Types (st : State World ReadCloser) (c : ReqContext)
  (ev : EventPayload Authorization).

Local Abbreviation token := (Cfg_SlackToken (hs_Cfg hs)).
Local Abbreviation calls st := (http_calls (effects st)).
Local Abbreviation post_for blocks :=
  (fun ch => postMessage_request token (marshal_body env (postMessage_of blocks ch))).

(** *** Share handler *)

(** Whatever the world answers, the loop posts for a prefix of the channel
    list, in order; it reaches the end of the list exactly when it is left
    without a response of its own, and the only response of its own is a
    400. *)
Lemma ShareToSlack_loop_prefix blocks channelIds st :
  let run := ShareToSlack_loop env hs blocks channelIds st in
  exists k,
    k <= List.length channelIds
    /\ calls (snd run) = calls st ++ map (post_for blocks) (take k channelIds)
    /\ (fst run = Returned None -> k = List.length channelIds)
    /\ (forall r, fst run = Returned (Some r) ->
                  exists err, r = response_Error 400 "error parsing body" err).
Proof.
  revert st. induction channelIds as [|ch rest IH]; intros st run; subst run.
  - exists 0. simpl. rewrite app_nil_r. repeat split; auto. intros r [=].
  - rewrite ShareToSlack_loop_cons.
    destruct (ShareToSlack_channel_cases _ _ _ _ env hs blocks ch st)
      as [(err & _ & ->) | [(b & e & _ & _ & ->) |
          [(b & r & w' & Hm & _ & _ & ->) |
           (b & r & w' & resBody & w'' & Hm & _ & _ & ->)]]].
    + exists 0. simpl. rewrite app_nil_r. repeat split; auto; try lia; try discriminate.
      intros r [= <-]. eauto.
    + exists 0. simpl. rewrite app_nil_r. repeat split; auto; try lia; discriminate.
    + exists 1. simpl. rewrite http_calls_app. simpl.
      unfold marshal_body. rewrite Hm.
      repeat split; auto; try lia; discriminate.
    + match goal with
      | |- context [ShareToSlack_loop env hs blocks rest ?s] =>
          destruct (IH s) as (k & Hk & Hcalls & Hend & Herr)
      end.
      exists (S k). simpl. rewrite Hcalls. simpl. rewrite !http_calls_app. simpl.
      unfold marshal_body at 2. rewrite Hm. rewrite app_nil_r, <- app_assoc.
      repeat split; auto; try lia.
Qed.

Lemma ShareToSlack_calls_are_a_prefix c st dashboard w1 shareRequest :
  DashboardService_GetDashboard hs (Req_Context c)
    {| GetDashboardQuery_UID := web_Params c ":uid" |} (world st)
  = (Ok dashboard, w1) ->
  web_Bind_ShareRequest env c = Ok shareRequest ->
  let blocks :=
    ShareToSlack_blocks (ShareToSlack_link env hs shareRequest)
      (Dashboard_Title env dashboard) shareRequest in
  let channelIds := ShareRequest_ChannelIds shareRequest in
  exists k,
    calls (snd (ShareToSlack env hs c st))
    = calls st ++ map (post_for blocks) (take k channelIds).
Proof.
  intros Hget Hbind blocks channelIds.
  rewrite (ShareToSlack_enters_loop _ _ _ _ env hs c st dashboard w1 shareRequest
             Hget Hbind).
  fold blocks channelIds.
  destruct (ShareToSlack_loop_prefix blocks channelIds
              {| world := w1; effects := effects st |})
    as (k & Hk & Hcalls & _).
  exists k.
  destruct (ShareToSlack_loop env hs blocks channelIds _) as [[[r|]|p] st'];
    exact Hcalls.
Qed.

(** X3.  Once the dashboard is fetched and the body decoded, the calls
    [ShareToSlack] makes are, in every run (returning, refusing or
    panicking), the chat.postMessage requests of the first k channel
    identifiers in list order, for some k up to their number: channels are
    never skipped or reordered, a run that stops early only cuts the tail. *)
Theorem ShareToSlack_posts_a_prefix c st dashboard w1 shareRequest :
  DashboardService_GetDashboard hs (Req_Context c)
    {| GetDashboardQuery_UID := web_Params c ":uid" |} (world st)
  = (Ok dashboard, w1) ->
  web_Bind_ShareRequest env c = Ok shareRequest ->
  let blocks :=
    ShareToSlack_blocks (ShareToSlack_link env hs shareRequest)
      (Dashboard_Title env dashboard) shareRequest in
  let channelIds := ShareRequest_ChannelIds shareRequest in
  exists k,
    k <= List.length channelIds
    /\ calls (snd (ShareToSlack env hs c st))
       = calls st ++ map (post_for blocks) (take k channelIds).
Proof.
  intros Hget Hbind blocks channelIds.
  rewrite (ShareToSlack_enters_loop _ _ _ _ env hs c st dashboard w1 shareRequest
             Hget Hbind).
  fold blocks channelIds.
  destruct (ShareToSlack_loop_prefix blocks channelIds
              {| world := w1; effects := effects st |})
    as (k & Hk & Hcalls & _).
  exists k. split; [exact Hk|].
  destruct (ShareToSlack_loop env hs blocks channelIds _) as [[[r|]|p] st'];
    exact Hcalls.
Qed.

(** The shape of a chat.postMessage request. *)
Lemma postMessage_request_authenticated tok b :
  authenticated_post chat_postMessage tok (postMessage_request tok b).
Proof.
  unfold authenticated_post, postMessage_request, Header_Add. simpl.
  repeat split.
Qed.

(** X4.  Every HTTP request [ShareToSlack] makes, in any run and whatever
    the outside world answers, is a POST to chat.postMessage whose only
    Authorization value is the bearer token of the configuration. *)
Theorem ShareToSlack_only_authenticated_posts c st :
  exists new,
    calls (snd (ShareToSlack env hs c st)) = calls st ++ new
    /\ Forall (authenticated_post chat_postMessage token) new.
Proof.
  destruct (DashboardService_GetDashboard hs (Req_Context c)
              {| GetDashboardQuery_UID := web_Params c ":uid" |} (world st))
    as [[dashboard|err] w1] eqn:Hget.
  - destruct (web_Bind_ShareRequest env c) as [shareRequest|err] eqn:Hbind.
    + destruct (ShareToSlack_calls_are_a_prefix c st dashboard w1 shareRequest Hget Hbind)
        as (k & Hcalls).
      eexists. split; [exact Hcalls|].
      apply Forall_forall. intros req Hin.
      apply list_elem_of_fmap in Hin as (ch & -> & _).
      apply postMessage_request_authenticated.
    + exists []. split; [|constructor].
      unfold ShareToSlack, bind, call. rewrite Hget, Hbind. simpl.
      now rewrite app_nil_r.
  - exists []. split; [|constructor].
    rewrite (ShareToSlack_fetch_error_run _ _ _ _ env hs c st err w1 Hget). simpl.
    rewrite http_calls_app. reflexivity.
Qed.

(** X5.  [ShareToSlack] answers 200 only after a complete posting: a run
    that returns the 200 response has fetched the dashboard, decoded the
    body and made the chat.postMessage call of every channel identifier of
    the request, in list order. *)
Theorem ShareToSlack_success_means_all_posted c st :
  fst (ShareToSlack env hs c st) = Returned (response_JSON 200 JNil) ->
  exists dashboard w1 shareRequest,
    DashboardService_GetDashboard hs (Req_Context c)
      {| GetDashboardQuery_UID := web_Params c ":uid" |} (world st)
    = (Ok dashboard, w1)
    /\ web_Bind_ShareRequest env c = Ok shareRequest
    /\ calls (snd (ShareToSlack env hs c st))
       = calls st ++
         map (post_for (ShareToSlack_blocks (ShareToSlack_link env hs shareRequest)
                          (Dashboard_Title env dashboard) shareRequest))
             (ShareRequest_ChannelIds shareRequest).
Proof.
  intros Hrun.
  destruct (DashboardService_GetDashboard hs (Req_Context c)
              {| GetDashboardQuery_UID := web_Params c ":uid" |} (world st))
    as [[dashboard|err] w1] eqn:Hget.
  2:{ rewrite (ShareToSlack_fetch_error_run _ _ _ _ env hs c st err w1 Hget) in Hrun.
      discriminate. }
  destruct (web_Bind_ShareRequest env c) as [shareRequest|err] eqn:Hbind.
  2:{ unfold ShareToSlack, bind, call in Hrun. rewrite Hget, Hbind in Hrun.
      discriminate. }
  exists dashboard, w1, shareRequest. repeat split.
  rewrite (ShareToSlack_enters_loop _ _ _ _ env hs c st dashboard w1 shareRequest
             Hget Hbind) in *.
  match goal with
  | |- context [ShareToSlack_loop env hs ?b ?l ?s] =>
      destruct (ShareToSlack_loop_prefix b l s) as (k & Hk & Hcalls & Hend & Herr);
      destruct (ShareToSlack_loop env hs b l s) as [[[r|]|p] st']
  end; simpl in *.
  - destruct (Herr r eq_refl) as [err ->]. discriminate.
  - rewrite Hcalls, (Hend eq_refl). now rewrite firstn_all.
  - discriminate.
Qed.

(** X6.  With an empty channel list [ShareToSlack] answers 200 right after
    the dashboard fetch: no HTTP call is made and nothing is logged. *)
Theorem ShareToSlack_no_channels c st dashboard w1 shareRequest :
  DashboardService_GetDashboard hs (Req_Context c)
    {| GetDashboardQuery_UID := web_Params c ":uid" |} (world st)
  = (Ok dashboard, w1) ->
  web_Bind_ShareRequest env c = Ok shareRequest ->
  ShareRequest_ChannelIds shareRequest = [] ->
  ShareToSlack env hs c st
  = (Returned (response_JSON 200 JNil), {| world := w1; effects := effects st |}).
Proof.
  intros Hget Hbind Hnil.
  rewrite (ShareToSlack_enters_loop _ _ _ _ env hs c st dashboard w1 shareRequest
             Hget Hbind).
  now rewrite Hnil.
Qed.

(** *** Unfurl orchestrator *)

Lemma length_remove_dups_le (l : list string) :
  List.length (remove_dups l) <= List.length l.
Proof.
  induction l as [|x l IH]; simpl; [lia|].
  destruct (decide_rel elem_of x l); simpl; lia.
Qed.

(** X7.  The unfurl payload has one entry per distinct link URL: links that
    repeat a URL share their entry, so the number of entries is the number
    of different URLs among the links and never exceeds the number of
    links. *)
Theorem sendUnfurlEvent_one_entry_per_distinct_URL ev imagePath dashboardTitle :
  let unfurls :=
    UnfurlEventPayload_Unfurls
      (sendUnfurlEvent_payload env hs ev imagePath dashboardTitle) in
  let urls := Link_URL <$> Event_Links (EventPayload_Event ev) in
  size unfurls = List.length (remove_dups urls)
  /\ size unfurls <= List.length (Event_Links (EventPayload_Event ev)).
Proof.
  intros unfurls urls.
  assert (E : size unfurls = List.length (remove_dups urls)).
  { rewrite <- (size_dom (D := gset string)).
    unfold unfurls, sendUnfurlEvent_payload. simpl.
    rewrite store_dom, dom_empty_L, (left_id_L ∅ (∪)).
    fold urls.
    rewrite <- (size_list_to_set (C := gset string) (remove_dups urls))
      by apply NoDup_remove_dups.
    f_equal. apply set_eq. intros x.
    now rewrite !elem_of_list_to_set, elem_of_remove_dups. }
  split; [exact E|]. rewrite E.
  etransitivity; [apply length_remove_dups_le|].
  unfold urls. now rewrite length_fmap.
Qed.

Ltac unfold_steps :=
  unfold http_NewRequest, http_Do, req_Header_Add, res_Body, hs_log_Info,
    hs_log_Error, renderDashboard;
  unfold bind, defer, deref, index, call, emit, ret, panic.

Ltac break_world :=
  match goal with
  | |- context [json_Marshal ?e ?v] =>
      destruct (json_Marshal e v) as [?|?] eqn:?
  | |- context [http_NewRequest_check ?e ?m ?u] =>
      destruct (http_NewRequest_check e m u) as [?|] eqn:?
  | |- context [DashboardService_GetDashboard ?h ?c ?q ?w] =>
      destruct (DashboardService_GetDashboard h c q w) as [[?|?] ?] eqn:?
  | |- context [RenderService_Render ?h ?c ?o ?w] =>
      destruct (RenderService_Render h c o w) as [[?|?] ?] eqn:?
  | |- context [http_DefaultClient_Do ?e ?r ?w] =>
      destruct (http_DefaultClient_Do e r w) as [? ?] eqn:?
  | |- context [io_ReadAll ?e ?b ?w] =>
      destruct (io_ReadAll e b w) as [[? [?|]] ?] eqn:?
  | |- context [Body_Close ?e ?b ?w] =>
      destruct (Body_Close e b w) as [[?|] ?] eqn:?
  | |- context [json_Unmarshal_SlackChannels ?e ?b] =>
      destruct (json_Unmarshal_SlackChannels e b) as [?|?] eqn:?
  | |- context [match Do_err ?r with _ => _ end] => destruct (Do_err r) as [?|] eqn:?
  | |- context [match Do_res ?r with _ => _ end] => destruct (Do_res r) as [?|] eqn:?
  end; simpl.

Lemma unfurl_request_authenticated tok b :
  authenticated_post chat_unfurl tok (unfurl_request tok b).
Proof. unfold authenticated_post, unfurl_request, Header_Add. simpl. repeat split. Qed.

(** X8.  When the HTTP client reports an error, [sendUnfurlEvent] returns
    that error wrapped as "client: error making http request: ..." right
    after the call: the response, if one came with the error, is neither
    read nor closed, and the one call and the log line before it are all
    that happened. *)
Theorem sendUnfurlEvent_http_error ctx ev imagePath dashboardTitle st b r w1 err :
  json_Marshal env
    (JUnfurlEventPayload (sendUnfurlEvent_payload env hs ev imagePath dashboardTitle))
  = Ok b ->
  http_NewRequest_check env http_MethodPost chat_unfurl = None ->
  http_DefaultClient_Do env (unfurl_request token b) (world st) = (r, w1) ->
  Do_err r = Some err ->
  sendUnfurlEvent env hs ctx ev imagePath dashboardTitle st
  = (Returned (Some (wrapError ("client: error making http request: " +:+ error_Error err)
                       err)),
     {| world := w1;
        effects :=
          (effects st ++ [Log LvlInfo "Posting to slack api" [("eventPayload", LogStr b)]])
          ++ [HttpDo (unfurl_request token b) r] |}).
Proof.
  intros Hm Hc Hdo Herr. unfold sendUnfurlEvent. unfold chat_unfurl in Hc.
  rewrite Hm. unfold_steps. rewrite Hc. simpl.
  unfold unfurl_request in Hdo. simpl in Hdo. rewrite Hdo. simpl.
  now rewrite Herr.
Qed.

(** X9.  When the HTTP call succeeds, what [sendUnfurlEvent] returns is
    decided by reading the body alone: nil after a complete read, the
    wrapped read error otherwise.  The body is closed after the read in
    both cases, and whether closing fails changes nothing in the result. *)
Theorem sendUnfurlEvent_closes_after_read
    ctx ev imagePath dashboardTitle st b r w1 resp resBody rerr w2 cerr w3 :
  json_Marshal env
    (JUnfurlEventPayload (sendUnfurlEvent_payload env hs ev imagePath dashboardTitle))
  = Ok b ->
  http_NewRequest_check env http_MethodPost chat_unfurl = None ->
  http_DefaultClient_Do env (unfurl_request token b) (world st) = (r, w1) ->
  Do_err r = None -> Do_res r = Some resp ->
  io_ReadAll env (Response_Body resp) w1 = ((resBody, rerr), w2) ->
  Body_Close env (Response_Body resp) w2 = (cerr, w3) ->
  let run := sendUnfurlEvent env hs ctx ev imagePath dashboardTitle st in
  fst run
  = Returned
      (match rerr with
       | Some e =>
           Some (wrapError ("client: could not read response body: " +:+ error_Error e) e)
       | None => None
       end)
  /\ world (snd run) = w3
  /\ calls (snd run) = calls st ++ [unfurl_request token b].
Proof.
  intros Hm Hc Hdo Herr Hres Hread Hclose run. subst run.
  rewrite sendUnfurlEvent_calls. rewrite Hm, Hc.
  unfold sendUnfurlEvent. unfold chat_unfurl in Hc.
  rewrite Hm. unfold_steps. rewrite Hc. simpl.
  unfold unfurl_request in Hdo. simpl in Hdo. rewrite Hdo. simpl.
  rewrite Herr, Hres. simpl. rewrite Hread. simpl.
  destruct rerr as [e|]; simpl; rewrite Hclose; destruct cerr; simpl; auto.
Qed.

(** The calls of the unfurl path: none, or the one chat.unfurl request. *)
Lemma handleLinkSharedEvent_calls ev st :
  exists new,
    calls (snd (handleLinkSharedEvent env hs ev st)) = calls st ++ new
    /\ (new = [] \/ exists b, new = [unfurl_request token b]).
Proof.
  destruct (Event_Links (EventPayload_Event ev)) as [|link rest] eqn:Hl.
  { exists []. rewrite (handleLinkSharedEvent_no_links _ _ _ _ env hs ev st Hl).
    simpl. rewrite app_nil_r. auto. }
  rewrite (handleLinkSharedEvent_first_link _ _ _ _ env hs ev link rest st Hl).
  destruct (extractURLInfo (Link_URL link)) as [renderPath dashboardUID].
  assert (Hlog : forall msg lctx (s : State World ReadCloser) new,
             calls s = calls st ++ new ->
             calls (snd (hs_log_Error msg lctx s)) = calls st ++ new).
  { intros msg lctx s new Hs. unfold hs_log_Error, emit. simpl.
    rewrite http_calls_app, Hs. simpl. now rewrite app_nil_r. }
  destruct (String.eqb renderPath "").
  { exists []. split; [|auto]. apply Hlog. now rewrite app_nil_r. }
  unfold bind at 1. unfold call at 1.
  destruct (DashboardService_GetDashboard hs _ _ _) as [[dashboard|err] w1].
  2:{ exists []. split; [|auto]. apply Hlog. simpl. now rewrite app_nil_r. }
  unfold bind at 1.
  destruct (renderDashboard env hs context_Background renderPath _)
    as [[[imagePath|err]|p] s1] eqn:Hr;
    assert (Hs1 : calls s1 = calls st)
      by (unfold renderDashboard, bind, call, ret in Hr; simpl in Hr;
          destruct (RenderService_Render hs _ _ _) as [[?|?] ?]; simpl in Hr;
          now injection Hr as _ <-).
  2:{ exists []. split; [|auto]. apply Hlog. now rewrite app_nil_r. }
  2:{ exists []. split; [|auto]. simpl. now rewrite app_nil_r. }
  unfold bind at 1.
  pose proof (sendUnfurlEvent_calls _ _ _ _ env hs context_Background ev imagePath
                (Dashboard_Title env dashboard) s1) as Hsend.
  rewrite Hs1 in Hsend.
  destruct (sendUnfurlEvent env hs context_Background ev imagePath _ s1)
    as [[[err|]|p] s2]; simpl in Hsend;
    eexists; (split; [first [apply Hlog; exact Hsend | exact Hsend]|]);
    destruct (json_Marshal env _) as [b|?]; auto;
    destruct (http_NewRequest_check env _ _); eauto.
Qed.

(** X10.  In any run, and whatever the outside world answers,
    [handleLinkSharedEvent] makes at most one HTTP call, and that call is
    a POST to chat.unfurl carrying the bearer token of the configuration:
    an event with several links is still answered with a single call. *)
Theorem handleLinkSharedEvent_at_most_one_call ev st :
  exists new,
    calls (snd (handleLinkSharedEvent env hs ev st)) = calls st ++ new
    /\ List.length new <= 1
    /\ Forall (authenticated_post chat_unfurl token) new.
Proof.
  destruct (handleLinkSharedEvent_calls ev st) as (new & Hcalls & [->|[b ->]]);
    eexists; (split; [exact Hcalls|]); simpl; split; try lia.
  - constructor.
  - constructor; [apply unfurl_request_authenticated | constructor].
Qed.

(** [renderDashboard] neither logs nor calls out over HTTP. *)
Lemma renderDashboard_effects ctx renderPath st :
  effects (snd (renderDashboard env hs ctx renderPath st)) = effects st
  /\ exists r, fst (renderDashboard env hs ctx renderPath st) = Returned r.
Proof.
  unfold renderDashboard, bind, call, ret. simpl.
  destruct (RenderService_Render hs _ _ _) as [[?|?] ?]; simpl; eauto.
Qed.

(** X11.  Only the first link of an event decides what is shown: when its
    URL yields a render path, its dashboard is found and rendered, the one
    call of the unfurl path carries the payload built from that dashboard's
    title and that rendering, and every link of the event, whatever
    dashboard its own URL names, is unfurled with that title and image. *)
Theorem handleLinkSharedEvent_first_link_decides
    ev link rest st renderPath dashboardUID dashboard w1 imagePath s2 :
  Event_Links (EventPayload_Event ev) = link :: rest ->
  extractURLInfo (Link_URL link) = (renderPath, dashboardUID) ->
  renderPath <> "" ->
  DashboardService_GetDashboard hs context_Background
    {| GetDashboardQuery_UID := dashboardUID |} (world st)
  = (Ok dashboard, w1) ->
  renderDashboard env hs context_Background renderPath
    {| world := w1; effects := effects st |}
  = (Returned (Ok imagePath), s2) ->
  let title := Dashboard_Title env dashboard in
  let payload := sendUnfurlEvent_payload env hs ev imagePath title in
  calls (snd (handleLinkSharedEvent env hs ev st))
  = calls st ++
    match json_Marshal env (JUnfurlEventPayload payload),
          http_NewRequest_check env http_MethodPost chat_unfurl with
    | Ok b, None => [unfurl_request token b]
    | _, _ => []
    end
  /\ forall l, l ∈ link :: rest ->
       UnfurlEventPayload_Unfurls payload !! Link_URL l
       = Some (sendUnfurlEvent_unfurl title
                 (getImageURL env hs (filepath_Base env imagePath)) l).
Proof.
  intros Hl Hext Hne Hget Hrender title payload. split.
  - rewrite (handleLinkSharedEvent_first_link _ _ _ _ env hs ev link rest st Hl).
    rewrite Hext.
    destruct (String.eqb_spec renderPath ""); [done|].
    unfold bind at 1. unfold call at 1. rewrite Hget.
    unfold bind at 1. rewrite Hrender.
    unfold bind at 1.
    pose proof (sendUnfurlEvent_calls _ _ _ _ env hs context_Background ev imagePath
                  title s2) as Hsend.
    assert (Hs2 : calls s2 = calls st).
    { pose proof (renderDashboard_effects context_Background renderPath
                    {| world := w1; effects := effects st |}) as [E _].
      rewrite Hrender in E. simpl in E. now rewrite E. }
    rewrite Hs2 in Hsend. fold title.
    destruct (sendUnfurlEvent env hs context_Background ev imagePath title s2)
      as [[[err|]|p] s3]; simpl in *; try exact Hsend.
    unfold hs_log_Error, emit. simpl. rewrite http_calls_app, Hsend. simpl.
    now rewrite app_nil_r.
  - intros l Hin. unfold payload, sendUnfurlEvent_payload. simpl. rewrite Hl.
    now apply store_lookup.
Qed.

(** *** Event dispatcher *)

Lemma AcknowledgeSlackEvent_url_verification_run c ev st :
  web_Bind_EventPayload env c = Ok ev ->
  EventPayload_Type ev = "url_verification" ->
  AcknowledgeSlackEvent env hs c st
  = (Returned
       (response_JSON 200
          (JEventChallengeAck
             {| EventChallengeAck_Challenge := EventPayload_Challenge ev |})),
     st).
Proof.
  intros Hbind Htype. unfold AcknowledgeSlackEvent. now rewrite Hbind, Htype.
Qed.

(** X12.  Unless the body decodes to a qualifying link-shared event,
    [AcknowledgeSlackEvent] only answers: it returns a response that is
    not the empty 200, makes no call into the outside world and logs
    nothing. *)
Theorem AcknowledgeSlackEvent_idle_unless_qualifying c st :
  (forall ev, web_Bind_EventPayload env c = Ok ev -> ~ qualifying ev) ->
  exists r,
    AcknowledgeSlackEvent env hs c st = (Returned r, st)
    /\ r <> response_Empty 200.
Proof.
  intros Hnq.
  destruct (web_Bind_EventPayload env c) as [ev|err] eqn:Hbind.
  - specialize (Hnq ev eq_refl).
    destruct (String.eqb_spec (EventPayload_Type ev) "url_verification") as [E|E].
    + eexists. split.
      * now apply (AcknowledgeSlackEvent_url_verification_run c ev st).
      * discriminate.
    + eexists. split.
      * now apply (AcknowledgeSlackEvent_unhandled _ _ _ _ env hs c ev st).
      * discriminate.
  - eexists. split.
    + unfold AcknowledgeSlackEvent. now rewrite Hbind.
    + discriminate.
Qed.

(** *** getImageURL *)

Lemma append_inj_l (a b c : string) : a +:+ b = a +:+ c -> b = c.
Proof.
  induction a as [|x a IH]; [auto|].
  change (String x a +:+ b) with (String x (a +:+ b)).
  change (String x a +:+ c) with (String x (a +:+ c)).
  intros [= H]. auto.
Qed.

Lemma getImageURL_base imageName :
  getImageURL env hs imageName
  = image_base env hs +:+ "public/img/attachments/" +:+ imageName.
Proof.
  unfold getImageURL, image_base.
  destruct (negb (String.eqb (Cfg_RendererCallbackUrl (hs_Cfg hs)) "")).
  - reflexivity.
  - rewrite !StrFacts.append_assoc. reflexivity.
Qed.

(** X13.  Every image URL is one configuration-dependent base followed by
    "public/img/attachments/" and the image name, unchanged, at the very
    end; so different image names never get the same URL. *)
Theorem getImageURL_embeds_name :
  (exists base, forall imageName,
      getImageURL env hs imageName = base +:+ "public/img/attachments/" +:+ imageName)
  /\ (forall n1 n2, n1 <> n2 -> getImageURL env hs n1 <> getImageURL env hs n2).
Proof.
  split.
  - exists (image_base env hs). apply getImageURL_base.
  - intros n1 n2 Hne E. rewrite !getImageURL_base in E.
    apply append_inj_l in E. apply (append_inj_l "public/img/attachments/") in E.
    contradiction.
Qed.

(** *** GeneratePreview *)

(** X14.  [GeneratePreview] refuses a body that does not decode with a 400
    and does nothing else.  For a decoded body it logs one line, renders
    the requested path, and answers 500 "Rendering failed" with the
    rendering error, or 200 with the image URL of the rendered file's base
    name; it never makes an HTTP call. *)
Theorem GeneratePreview_response c st :
  (forall err,
      web_Bind_PreviewRequest env2 c = Err err ->
      GeneratePreview env env2 hs c st
      = (Returned (responseOf_Error 400 "error parsing body" err), st))
  /\ (forall previewRequest r s1,
         web_Bind_PreviewRequest env2 c = Ok previewRequest ->
         let url := PreviewRequest_DashboardURL previewRequest in
         renderDashboard env hs (Req_Context c) url
           {| world := world st;
              effects :=
                effects st ++
                [Log LvlInfo "Generating preview" [("dashboard_url", LogStr url)]] |}
         = (Returned r, s1) ->
         GeneratePreview env env2 hs c st
         = (Returned
              match r with
              | Err err => responseOf_Error 500 "Rendering failed" err
              | Ok filePath =>
                  responseOf_JSON 200
                    {| PreviewResponse_PreviewURL :=
                         getImageURL env hs (filepath_Base env filePath) |}
              end,
            s1)
         /\ calls s1 = calls st).
Proof.
  split.
  - intros err Hbind. unfold GeneratePreview. now rewrite Hbind.
  - intros previewRequest r s1 Hbind url Hrender. split.
    + unfold GeneratePreview. rewrite Hbind.
      unfold bind at 1. unfold hs_log_Info, emit. fold url.
      unfold bind at 1. rewrite Hrender. now destruct r.
    + pose proof (renderDashboard_effects (Req_Context c) url
                    {| world := world st;
                       effects :=
                         effects st ++
                         [Log LvlInfo "Generating preview"
                            [("dashboard_url", LogStr url)]] |}) as [E _].
      rewrite Hrender in E. simpl in E. rewrite E, http_calls_app. simpl.
      apply app_nil_r.
Qed.

(** *** GetSlackChannels *)

Lemma conversations_request_authenticated tok :
  authenticated_post conversations_list tok (conversations_request tok).
Proof.
  unfold authenticated_post, conversations_request, Header_Add. simpl.
  repeat split.
Qed.

(** [GetSlackChannels] once the request is constructed and sent. *)
Lemma GetSlackChannels_after_call c st r w1 :
  http_NewRequest_check env http_MethodPost conversations_list = None ->
  http_DefaultClient_Do env (conversations_request token) (world st) = (r, w1) ->
  let sent :=
    {| world := w1;
       effects := effects st ++ [HttpDo (conversations_request token) r] |} in
  GetSlackChannels env env2 hs c st
  = match Do_err r with
    | Some err =>
        (Returned (responseOf_Error 500 "error making http request" err), sent)
    | None =>
        defer
          (bind (res_Body (Do_res r))
             (fun body =>
                bind (call (Body_Close env body))
                  (fun cerr =>
                     match cerr with
                     | Some err =>
                         hs_log_Error "failed to close response body"
                           [("err", LogErr err)]
                     | None => ret tt
                     end)))
          (bind (res_Body (Do_res r))
             (fun body =>
                bind (call (io_ReadAll env body))
                  (fun read =>
                     let '(b, err) := read in
                     match err with
                     | Some err =>
                         ret (responseOf_Error 500 "could not read response body" err)
                     | None =>
                         match json_Unmarshal_SlackChannels env2 b with
                         | Err err =>
                             ret (responseOf_Error 500
                                    "could not unmarshall response" err)
                         | Ok result =>
                             ret (responseOf_JSON 200
                                    (SlackChannels_Channels env2 result))
                         end
                     end)))
          sent
    end.
Proof.
  intros Hc Hdo sent. subst sent. unfold GetSlackChannels.
  unfold conversations_list in Hc. unfold conversations_request in *.
  unfold_steps. rewrite Hc. simpl. simpl in Hdo. rewrite Hdo. simpl.
  destruct (Do_err r); reflexivity.
Qed.

(** X15.  When the HTTP client reports an error, [GetSlackChannels] answers
    500 "error making http request" with that error, right after its one
    call; a response that came with the error is neither read nor closed. *)
Theorem GetSlackChannels_http_error c st r w1 err :
  http_NewRequest_check env http_MethodPost conversations_list = None ->
  http_DefaultClient_Do env (conversations_request token) (world st) = (r, w1) ->
  Do_err r = Some err ->
  GetSlackChannels env env2 hs c st
  = (Returned (responseOf_Error 500 "error making http request" err),
     {| world := w1;
        effects := effects st ++ [HttpDo (conversations_request token) r] |}).
Proof.
  intros Hc Hdo Herr. rewrite (GetSlackChannels_after_call c st r w1 Hc Hdo).
  now rewrite Herr.
Qed.

(** X16.  When the HTTP call succeeds, the answer of [GetSlackChannels] is
    decided by reading and decoding the body: 500 "could not read response
    body", 500 "could not unmarshall response", or 200 with the channels
    of the decoded list.  In all three cases the body is closed after the
    read, and whether closing fails changes nothing in the answer. *)
Theorem GetSlackChannels_closes_after_read c st r w1 resp b rerr w2 cerr w3 :
  http_NewRequest_check env http_MethodPost conversations_list = None ->
  http_DefaultClient_Do env (conversations_request token) (world st) = (r, w1) ->
  Do_err r = None -> Do_res r = Some resp ->
  io_ReadAll env (Response_Body resp) w1 = ((b, rerr), w2) ->
  Body_Close env (Response_Body resp) w2 = (cerr, w3) ->
  let run := GetSlackChannels env env2 hs c st in
  fst run
  = Returned
      match rerr with
      | Some err => responseOf_Error 500 "could not read response body" err
      | None =>
          match json_Unmarshal_SlackChannels env2 b with
          | Err err => responseOf_Error 500 "could not unmarshall response" err
          | Ok result => responseOf_JSON 200 (SlackChannels_Channels env2 result)
          end
      end
  /\ world (snd run) = w3
  /\ calls (snd run) = calls st ++ [conversations_request token].
Proof.
  intros Hc Hdo Herr Hres Hread Hclose run. subst run.
  rewrite (GetSlackChannels_after_call c st r w1 Hc Hdo). rewrite Herr, Hres.
  unfold defer, res_Body, deref, bind, call, ret, hs_log_Error, emit. simpl.
  rewrite Hread. simpl.
  destruct rerr as [e|]; simpl;
    [|destruct (json_Unmarshal_SlackChannels env2 b); simpl];
    rewrite Hclose; destruct cerr; simpl;
    rewrite ?http_calls_app; simpl; rewrite ?app_nil_r; auto.
Qed.

(** X17.  A request that http.NewRequest refuses makes [GetSlackChannels]
    panic with a nil dereference when the headers are added, before any
    call and before the error is looked at; so the answer 500 "could not
    create request" of that later check is never given. *)
Theorem GetSlackChannels_never_reports_request_error c st :
  (forall e,
      http_NewRequest_check env http_MethodPost conversations_list = Some e ->
      GetSlackChannels env env2 hs c st = (Panicked NilDereference, st))
  /\ (forall e,
         fst (GetSlackChannels env env2 hs c st)
         <> Returned (responseOf_Error 500 "could not create request" e)).
Proof.
  split.
  - intros e Hc. unfold GetSlackChannels, http_NewRequest.
    unfold conversations_list in Hc. now rewrite Hc.
  - intros e.
    destruct (http_NewRequest_check env http_MethodPost conversations_list)
      as [e'|] eqn:Hc.
    + unfold GetSlackChannels, http_NewRequest.
      unfold conversations_list in Hc. now rewrite Hc.
    + destruct (http_DefaultClient_Do env (conversations_request token) (world st))
        as [r w1] eqn:Hdo.
      rewrite (GetSlackChannels_after_call c st r w1 Hc Hdo).
      destruct (Do_err r); [discriminate|].
      unfold defer, res_Body, deref, bind, call, ret, panic, hs_log_Error, emit.
      simpl. repeat break_world; discriminate.
Qed.

(** X18.  In any run, and whatever the outside world answers,
    [GetSlackChannels] makes at most one HTTP call, and that call is a
    POST to conversations.list carrying the bearer token of the
    configuration. *)
Theorem GetSlackChannels_at_most_one_call c st :
  exists new,
    calls (snd (GetSlackChannels env env2 hs c st)) = calls st ++ new
    /\ List.length new <= 1
    /\ Forall (authenticated_post conversations_list token) new.
Proof.
  destruct (http_NewRequest_check env http_MethodPost conversations_list)
    as [e'|] eqn:Hc.
  - exists []. unfold GetSlackChannels, http_NewRequest.
    unfold conversations_list in Hc. rewrite Hc. simpl. rewrite app_nil_r.
    repeat split; [lia | constructor].
  - exists [conversations_request token].
    split; [|split; [simpl; lia |
                     constructor; [apply conversations_request_authenticated
                                  | constructor]]].
    destruct (http_DefaultClient_Do env (conversations_request token) (world st))
      as [r w1] eqn:Hdo.
    rewrite (GetSlackChannels_after_call c st r w1 Hc Hdo).
    destruct (Do_err r);
      [simpl; rewrite http_calls_app; reflexivity|].
    unfold defer, res_Body, deref, bind, call, ret, panic, hs_log_Error, emit.
    simpl. repeat break_world;
      rewrite ?http_calls_app; simpl; rewrite ?app_nil_r;
      rewrite ?http_calls_app; simpl; rewrite ?app_nil_r; reflexivity.
Qed.

(** X19.  With a first link, when its URL yields no render path, or the
    dashboard fetch fails, or the rendering fails, [handleLinkSharedEvent]
    returns after logging exactly one line, at error level, and doing
    nothing else: no HTTP call is made. *)
Theorem handleLinkSharedEvent_gives_up_with_one_log_line ev link rest st :
  Event_Links (EventPayload_Event ev) = link :: rest ->
  let renderPath := fst (extractURLInfo (Link_URL link)) in
  let dashboardUID := snd (extractURLInfo (Link_URL link)) in
  let fetch :=
    DashboardService_GetDashboard hs context_Background
      {| GetDashboardQuery_UID := dashboardUID |} (world st) in
  (renderPath = ""
   \/ (exists err, fst fetch = Err err)
   \/ (exists dashboard err,
          fst fetch = Ok dashboard
          /\ fst (renderDashboard env hs context_Background renderPath
                    {| world := snd fetch; effects := effects st |})
             = Returned (Err err))) ->
  exists w msg lctx,
    handleLinkSharedEvent env hs ev st
    = (Returned tt,
       {| world := w; effects := effects st ++ [Log LvlError msg lctx] |}).
Proof.
  intros H renderPath dashboardUID fetch Hcase.
  rewrite (handleLinkSharedEvent_first_link _ _ _ _ env hs ev link rest st H).
  subst renderPath dashboardUID fetch.
  destruct (extractURLInfo (Link_URL link)) as [renderPath dashboardUID].
  simpl in Hcase.
  destruct (String.eqb_spec renderPath "") as [->|Hne].
  { do 3 eexists. reflexivity. }
  destruct Hcase as [Hrp | [(err & Hf) | (dashboard & err & Hf & Hr)]]; [done| |].
  - unfold bind at 1. unfold call at 1.
    destruct (DashboardService_GetDashboard hs _ _ _) as [r w1].
    simpl in Hf. subst r. do 3 eexists. reflexivity.
  - unfold bind at 1. unfold call at 1.
    destruct (DashboardService_GetDashboard hs _ _ _) as [r w1].
    simpl in Hf, Hr. subst r. unfold bind at 1.
    pose proof (renderDashboard_effects context_Background renderPath
                  {| world := w1; effects := effects st |}) as [E _].
    destruct (renderDashboard env hs context_Background renderPath _) as [o [w2 es]].
    simpl in Hr, E. subst o es. do 3 eexists. reflexivity.
Qed.

(** X20.  A qualifying event with at least one link is answered with the
    empty 200 whatever happens on the unfurl path (no render path, failed
    fetch, failed rendering, failed marshalling, HTTP error, read error),
    provided the chat.unfurl request can be constructed and the client
    never returns a nil response without an error. *)
Theorem AcknowledgeSlackEvent_answers_200_with_links c ev link rest st :
  web_Bind_EventPayload env c = Ok ev -> qualifying ev ->
  Event_Links (EventPayload_Event ev) = link :: rest ->
  http_NewRequest_check env http_MethodPost chat_unfurl = None ->
  (forall req w, Do_err (fst (http_DefaultClient_Do env req w)) = None ->
                 Do_res (fst (http_DefaultClient_Do env req w)) <> None) ->
  fst (AcknowledgeSlackEvent env hs c st) = Returned (response_Empty 200).
Proof.
  intros Hbind Hq Hl Hc Hdo.
  now apply (AcknowledgeSlackEvent_link_shared _ _ _ _ env hs c ev link rest st).
Qed.

End MoreFacts.

(** ** The further properties on the sample deployment *)

Module OnSampleMore.
Import Sample SampleMore.

Lemma ShareToSlack_posts_a_prefix_witness :
  exists k,
    k <= 3
    /\ http_calls (effects (snd share_down))
       = map (fun ch =>
                postMessage_request "xoxb-1"
                  (marshal_body (env (Some 1) (Ok share3) no_body)
                     (postMessage_of blocks3 ch)))
             (take k ["C1"; "C2"; "C3"]).
Proof.
  apply (ShareToSlack_posts_a_prefix _ _ _ _
           (env (Some 1) (Ok share3) no_body) hs (request "abc") st0
           "Dashboard abc" 0 share3);
    reflexivity.
Defined.

Lemma ShareToSlack_success_means_all_posted_witness :
  exists dashboard w1 shareRequest,
    DashboardService_GetDashboard hs (Req_Context (request "abc"))
      {| GetDashboardQuery_UID := web_Params (request "abc") ":uid" |} (world st0)
    = (Ok dashboard, w1)
    /\ web_Bind_ShareRequest (env None (Ok share3) no_body) (request "abc")
       = Ok shareRequest
    /\ http_calls (effects (snd share_ok))
       = http_calls (effects st0) ++
         map (fun ch =>
                postMessage_request "xoxb-1"
                  (marshal_body (env None (Ok share3) no_body)
                     (postMessage_of
                        (ShareToSlack_blocks
                           (ShareToSlack_link (env None (Ok share3) no_body) hs
                              shareRequest)
                           dashboard shareRequest) ch)))
             (ShareRequest_ChannelIds shareRequest).
Proof.
  apply (ShareToSlack_success_means_all_posted _ _ _ _
           (env None (Ok share3) no_body) hs (request "abc") st0).
  vm_compute. reflexivity.
Defined.

Lemma ShareToSlack_no_channels_witness :
  ShareToSlack (env (Some 0) (Ok share0) no_body) hs (request "abc") st0
  = (Returned (response_JSON 200 JNil), st0).
Proof.
  apply (ShareToSlack_no_channels _ _ _ _
           (env (Some 0) (Ok share0) no_body) hs (request "abc") st0
           "Dashboard abc" 0 share0);
    reflexivity.
Defined.

Lemma sendUnfurlEvent_http_error_witness :
  fst (sendUnfurlEvent (env (Some 0) no_body (Ok two_links)) hs context_Background
         two_links "/var/lib/grafana/png/shot.png" "Dashboard abc" st0)
  = Returned
      (Some (wrapError
               "client: error making http request: dial tcp: connection refused"
               (errorString "dial tcp: connection refused"))).
Proof.
  rewrite (sendUnfurlEvent_http_error _ _ _ _
             (env (Some 0) no_body (Ok two_links)) hs context_Background two_links
             "/var/lib/grafana/png/shot.png" "Dashboard abc" st0 "unfurl in C1"
             {| Do_res := None;
                Do_err := Some (errorString "dial tcp: connection refused") |}
             1 (errorString "dial tcp: connection refused"));
    reflexivity.
Defined.

Lemma sendUnfurlEvent_closes_after_read_witness :
  fst (sendUnfurlEvent (env None no_body (Ok two_links)) hs context_Background
         two_links "/var/lib/grafana/png/shot.png" "Dashboard abc" st0)
  = Returned None
  /\ world (snd (sendUnfurlEvent (env None no_body (Ok two_links)) hs
                   context_Background two_links "/var/lib/grafana/png/shot.png"
                   "Dashboard abc" st0)) = 1
  /\ http_calls
       (effects (snd (sendUnfurlEvent (env None no_body (Ok two_links)) hs
                        context_Background two_links "/var/lib/grafana/png/shot.png"
                        "Dashboard abc" st0)))
     = http_calls (effects st0) ++ [unfurl_request "xoxb-1" "unfurl in C1"].
Proof.
  apply (sendUnfurlEvent_closes_after_read _ _ _ _
           (env None no_body (Ok two_links)) hs context_Background two_links
           "/var/lib/grafana/png/shot.png" "Dashboard abc" st0 "unfurl in C1"
           {| Do_res := Some {| Response_Body := "ok" |}; Do_err := None |}
           1 {| Response_Body := "ok" |} "ok" None 1 None 1);
    reflexivity.
Defined.

Lemma handleLinkSharedEvent_first_link_decides_witness :
  UnfurlEventPayload_Unfurls
    (sendUnfurlEvent_payload (env None no_body (Ok two_links)) hs two_links
       "/var/lib/grafana/png/shot.png" "Dashboard abc")
  !! "https://grafana.example/d/zzz/mem"
  = Some (sendUnfurlEvent_unfurl "Dashboard abc"
            (getImageURL (env None no_body (Ok two_links)) hs "shot.png")
            (link "https://grafana.example/d/zzz/mem")).
Proof.
  apply (proj2 (handleLinkSharedEvent_first_link_decides _ _ _ _
                  (env None no_body (Ok two_links)) hs two_links
                  (link "https://grafana.example/d/abc/cpu")
                  [link "https://grafana.example/d/zzz/mem"] st0
                  "/d/abc/cpu" "abc" "Dashboard abc" 0
                  "/var/lib/grafana/png/shot.png" st0
                  eq_refl eq_refl ltac:(discriminate) eq_refl eq_refl)
           (link "https://grafana.example/d/zzz/mem")).
  apply list_elem_of_In. simpl. right. left. reflexivity.
Defined.

Lemma AcknowledgeSlackEvent_idle_unless_qualifying_witness :
  exists r,
    AcknowledgeSlackEvent (env None no_body no_body) hs (request "") st0
    = (Returned r, st0)
    /\ r <> response_Empty 200.
Proof.
  apply (AcknowledgeSlackEvent_idle_unless_qualifying _ _ _ _
           (env None no_body no_body) hs (request "") st0).
  intros ev H. discriminate H.
Defined.

Lemma getImageURL_embeds_name_witness :
  getImageURL (env None no_body no_body) hs "a.png"
  <> getImageURL (env None no_body no_body) hs "b.png".
Proof.
  apply (proj2 (getImageURL_embeds_name _ _ _ _ (env None no_body no_body) hs)).
  discriminate.
Defined.

Lemma GeneratePreview_response_witness :
  GeneratePreview (env None no_body no_body) (env2 no_body) hs (request "") st0
  = (Returned
       (responseOf_Error 400 "error parsing body"
          (errorString "unexpected end of JSON input")),
     st0)
  /\ fst (GeneratePreview (env None no_body no_body) (env2 (Ok preview)) hs
            (request "") st0)
     = Returned
         (responseOf_JSON 200
            {| PreviewResponse_PreviewURL :=
                 "http://localhost:3000/public/img/attachments/shot.png" |}).
Proof.
  split.
  - apply (proj1 (GeneratePreview_response _ _ _ _ _ _
                    (env None no_body no_body) (env2 no_body) hs (request "") st0)).
    reflexivity.
  - rewrite (proj1 (proj2 (GeneratePreview_response _ _ _ _ _ _
                             (env None no_body no_body) (env2 (Ok preview)) hs
                             (request "") st0)
                      preview (Ok "/var/lib/grafana/png/shot.png")
                      {| world := 0;
                         effects :=
                           [Log LvlInfo "Generating preview"
                              [("dashboard_url", LogStr "/d/abc/cpu")]] |}
                      eq_refl eq_refl)).
    reflexivity.
Defined.

Lemma GetSlackChannels_http_error_witness :
  fst (GetSlackChannels (env (Some 0) no_body no_body) (env2 no_body) hs
         (request "") st0)
  = Returned (responseOf_Error 500 "error making http request"
                (errorString "dial tcp: connection refused")).
Proof.
  rewrite (GetSlackChannels_http_error _ _ _ _ _ _
             (env (Some 0) no_body no_body) (env2 no_body) hs (request "") st0
             {| Do_res := None;
                Do_err := Some (errorString "dial tcp: connection refused") |}
             1 (errorString "dial tcp: connection refused"));
    reflexivity.
Defined.

Lemma GetSlackChannels_closes_after_read_witness :
  fst (GetSlackChannels (env None no_body no_body) (env2 no_body) hs
         (request "") st0)
  = Returned (responseOf_JSON 200 "general,random")
  /\ world (snd (GetSlackChannels (env None no_body no_body) (env2 no_body) hs
                   (request "") st0)) = 1
  /\ http_calls
       (effects (snd (GetSlackChannels (env None no_body no_body) (env2 no_body)
                        hs (request "") st0)))
     = http_calls (effects st0) ++ [conversations_request "xoxb-1"].
Proof.
  apply (GetSlackChannels_closes_after_read _ _ _ _ _ _
           (env None no_body no_body) (env2 no_body) hs (request "") st0
           {| Do_res := Some {| Response_Body := "ok" |}; Do_err := None |}
           1 {| Response_Body := "ok" |} "ok" None 1 None 1);
    reflexivity.
Defined.

Lemma GetSlackChannels_never_reports_request_error_witness :
  GetSlackChannels (env_refusing no_body no_body) (env2 no_body) hs (request "") st0
  = (Panicked NilDereference, st0).
Proof.
  apply (proj1 (GetSlackChannels_never_reports_request_error _ _ _ _ _ _
                  (env_refusing no_body no_body) (env2 no_body) hs (request "") st0)
           (errorString "net/http: invalid method")).
  reflexivity.
Defined.

Lemma handleLinkSharedEvent_gives_up_with_one_log_line_witness :
  exists w msg lctx,
    handleLinkSharedEvent (env None no_body (Ok not_a_dashboard)) hs
      not_a_dashboard st0
    = (Returned tt,
       {| world := w; effects := effects st0 ++ [Log LvlError msg lctx] |}).
Proof.
  apply (handleLinkSharedEvent_gives_up_with_one_log_line _ _ _ _
           (env None no_body (Ok not_a_dashboard)) hs not_a_dashboard
           (link "https://grafana.example/explore") [] st0 eq_refl).
  left. reflexivity.
Defined.

Lemma AcknowledgeSlackEvent_answers_200_with_links_witness :
  fst (AcknowledgeSlackEvent (env (Some 0) no_body (Ok two_links)) hs
         (request "") st0)
  = Returned (response_Empty 200).
Proof.
  apply (AcknowledgeSlackEvent_answers_200_with_links _ _ _ _
           (env (Some 0) no_body (Ok two_links)) hs (request "") two_links
           (link "https://grafana.example/d/abc/cpu")
           [link "https://grafana.example/d/zzz/mem"] st0
           eq_refl (conj eq_refl (conj eq_refl eq_refl)) eq_refl eq_refl).
  intros req w. simpl. destruct (decide (Some 0 = Some w)); simpl; discriminate.
Defined.

End OnSampleMore.
